(** * The bochscpu execution backend of wtf: run statistics, lookup-table
      hashers and the state of [BochscpuBackend_t]

    Source: [src/wtf/bochscpu_backend.h].  The header defines
    [BochscpuRunStats_t] (with the bodies of [Print] and [Reset]), the two
    identity hashers, and the data members of [BochscpuBackend_t] with their
    default member initializers.  The member functions of the backend are
    only declared in the header; this development models their bodies from
    the specification of the backend, and each such definition says so. *)

From Stdlib Require Import ZArith Lia DecimalString.
From Stdlib Require DecimalPos DecimalN.
From stdpp Require Import gmap strings list fin_maps fin_sets.

Local Open Scope Z_scope.

(** ** Machine integers *)

(** [uint64_t] values are integers in [0, 2^64); arithmetic wraps around. *)
Definition is_uint64 (z : Z) : Prop := 0 ≤ z < 2 ^ 64.
Definition wrap64 (z : Z) : Z := z mod 2 ^ 64.

(** [size_t] on the 64-bit hosts the fuzzer is built for. *)
Definition size_t_bits : Z := 64.
Definition to_size_t (z : Z) : Z := z mod 2 ^ size_t_bits.

(** A C pointer that is either [nullptr] or refers to an object. *)
Inductive ptr (A : Type) : Type :=
  | nullptr : ptr A
  | ptr_to : A → ptr A.
Arguments nullptr {A}.
Arguments ptr_to {A} _.

(** ** Pages *)

Module Page.

(** Modelled from the spec: the constant [Page::Size] is declared in a
    header that is not available; the page is the fixed 4096-byte unit. *)
Definition Size : Z := 4096.

(** Modelled from the spec: pages are aligned on their size; the start of
    the page an address lies in, and the offset of the address inside it. *)
Definition Align (a : Z) : Z := Z.land a (Z.lnot (Size - 1)).
Definition Offset (a : Z) : Z := Z.land a (Size - 1).

End Page.

(** Modelled from the spec: [_1MB] comes from a header that is not
    available; by its name it is 1024 * 1024 bytes. *)
Definition _1MB : Z := 1024 * 1024.

(** ** Run statistics *)

Record BochscpuRunStats_t : Type := mkRunStats {
  NumberInstructionsExecuted : Z;
  NumberMemoryAccesses : Z;
  AggregatedCodeCoverage : Z;
  DirtyGpas : Z
}.

(** The default member initializers of the struct. *)
Definition BochscpuRunStats_t_init : BochscpuRunStats_t :=
  mkRunStats 0 0 0 0.

(** [fmt]'s [{}] on an unsigned integer: its decimal digits. *)
Definition fmt_u64 (z : Z) : string :=
  NilZero.string_of_uint (N.to_uint (Z.to_N z)).

(** The three figures [Print] computes before printing them. *)
Definition DirtyMemoryBytes (s : BochscpuRunStats_t) : Z :=
  wrap64 (DirtyGpas s * Page.Size).
Definition DirtyMemoryMb (s : BochscpuRunStats_t) : Z :=
  DirtyGpas s / Page.Size.
Definition MemoryAccessMb (s : BochscpuRunStats_t) : Z :=
  NumberMemoryAccesses s / _1MB.

Definition newline : string := String (Ascii.ascii_of_nat 10) EmptyString.

(** [BochscpuRunStats_t::Print]: the text written to the standard output. *)
Definition Print (s : BochscpuRunStats_t) : string :=
  "--------------------------------------------------" +:+ newline +:+
  "Run stats:" +:+ newline +:+
  "Instructions executed: " +:+ fmt_u64 (NumberInstructionsExecuted s) +:+
    " (" +:+ fmt_u64 (AggregatedCodeCoverage s) +:+ " unique)" +:+ newline +:+
  "          Dirty pages: " +:+ fmt_u64 (DirtyMemoryBytes s) +:+
    " bytes (" +:+ fmt_u64 (DirtyMemoryMb s) +:+ " MB)" +:+ newline +:+
  "      Memory accesses: " +:+ fmt_u64 (NumberMemoryAccesses s) +:+
    " bytes (" +:+ fmt_u64 (MemoryAccessMb s) +:+ " MB)" +:+ newline.

(** [BochscpuRunStats_t::Reset]: two assignments, the other members keep
    their values. *)
Definition Reset (s : BochscpuRunStats_t) : BochscpuRunStats_t :=
  {| NumberInstructionsExecuted := 0;
     NumberMemoryAccesses := 0;
     AggregatedCodeCoverage := AggregatedCodeCoverage s;
     DirtyGpas := DirtyGpas s |}.

(** All four counters read zero. *)
Definition all_counters_zero (s : BochscpuRunStats_t) : Prop :=
  NumberInstructionsExecuted s = 0 ∧ NumberMemoryAccesses s = 0 ∧
  AggregatedCodeCoverage s = 0 ∧ DirtyGpas s = 0.

(** Statistics as they stand after some run: every counter is non-zero. *)
Definition stats_after_a_run : BochscpuRunStats_t := mkRunStats 1200 640 37 3.

(** ** Typed addresses and their hashers *)

(** Modelled from the spec: [Gpa_t] and [Gva_t] are declared in a header
    that is not available; they are distinct wrappers around a raw 64-bit
    value read with [U64()], compared by that value. *)
Record Gpa_t : Type := mkGpa { Gpa_U64 : Z }.
Record Gva_t : Type := mkGva { Gva_U64 : Z }.

(** [IdentityGpaHash::operator()]: the raw value converted to [size_t]. *)
Definition IdentityGpaHash (Key : Gpa_t) : Z := to_size_t (Gpa_U64 Key).

(** [IdentityGvaHash::operator()]. *)
Definition IdentityGvaHash (Key : Gva_t) : Z := to_size_t (Gva_U64 Key).

(** The four lookup tables of the backend and the hasher each one is
    declared with.  [LastNewCoverage_] and [Breakpoints_] name no hasher in
    their template arguments, so they fall back on the container's default
    one for [Gva_t]. *)
Inductive Table : Type :=
  | AggregatedCodeCoverage_table
  | LastNewCoverage_table
  | DirtyGpas_table
  | Breakpoints_table.





#[global] Instance Gpa_t_eq_dec : EqDecision Gpa_t.
Proof. solve_decision. Defined.
#[global] Instance Gva_t_eq_dec : EqDecision Gva_t.
Proof. solve_decision. Defined.
#[global] Program Instance Gpa_t_countable : Countable Gpa_t :=
  inj_countable' Gpa_U64 mkGpa _.
Next Obligation. by intros []. Qed.
#[global] Program Instance Gva_t_countable : Countable Gva_t :=
  inj_countable' Gva_U64 mkGva _.
Next Obligation. by intros []. Qed.

(** Modelled from the spec: [Gpa_t] is declared in a header that is not
    available; the address of the page a physical address lies in, and its
    offset inside that page. *)
Definition Gpa_Align (Gpa : Gpa_t) : Gpa_t := mkGpa (Page.Align (Gpa_U64 Gpa)).
Definition Gpa_Offset (Gpa : Gpa_t) : Z := Page.Offset (Gpa_U64 Gpa).

(** ** The state of the backend *)

(** Modelled from the spec: the enumeration is declared in a header that is
    not available; the header at hand names [NoTrace], the specification
    lists the trace types none, instructions and full. *)
Inductive TraceType_t : Type := NoTrace | InstructionsTrace | FullTrace.

(** Modelled from the spec: the tagged variant Ok, Crash(reason), Timeout;
    the header at hand names only [Ok_t]. *)
Inductive TestcaseResult_t : Type :=
  | Ok_t
  | Crash_t (Reason : string)
  | Timeout_t.

#[global] Instance TestcaseResult_t_eq_dec : EqDecision TestcaseResult_t.
Proof. solve_decision. Defined.

(** Modelled from the spec: a breakpoint handler is a callback that either
    lets emulation resume or requests the run to stop with a result. *)
Inductive BreakpointHandler_t : Type :=
  | HandlerContinues
  | HandlerStops (Res : TestcaseResult_t).

(** Modelled from the spec: the register file together with the page-table
    root; the type is declared in a header that is not available. *)
Record CpuState_t : Type := mkCpuState {
  Cr3 : Z;
  Rip : Z;
  Registers : list Z
}.

(** Modelled from the spec: the emulated cpu behind the [bochscpu_cpu_t]
    handle, which belongs to the external engine: the state loaded into it
    and the stop request the engine polls. *)
Record bochscpu_cpu : Type := mkCpu {
  CpuState : CpuState_t;
  StopRequested : bool
}.

(** Modelled from the spec: the recognised fields of the configuration. *)
Record Options_t : Type := mkOptions {
  Limit : Z;
  OptTraceType : TraceType_t;
  TraceTarget : ptr string
}.

(** The data members of [BochscpuBackend_t], in the order of the header.
    [Hooks_] and [HookChain_] only carry the function pointers handed to
    the engine; the hooks are the functions of this file.  The header
    declares no member for the private copies of dirtied pages;
    [DirtyPages_] is modelled from the spec (an overlay from a page to its
    mutable copy, next to the immutable snapshot held by [DmpParser_]). *)
Record BochscpuBackend_t : Type := mkBackend {
  DmpParser_ : gmap Gpa_t (list Byte.byte);
  AggregatedCodeCoverage_ : gset Gva_t;
  LastNewCoverage_ : gset Gva_t;
  DirtyGpas_ : gset Gpa_t;
  Breakpoints_ : gmap Gva_t BreakpointHandler_t;
  Cpu_ : ptr bochscpu_cpu;
  InstructionLimit_ : Z;
  TraceFile_ : ptr string;
  TraceType_ : TraceType_t;
  TestcaseResult_ : TestcaseResult_t;
  InitialCr3_ : Z;
  RunStats_ : BochscpuRunStats_t;
  Seed_ : Z;
  TestcaseBuffer_ : ptr (list Byte.byte);
  TestcaseBufferSize_ : Z;
  DirtyPages_ : gmap Gpa_t (list Byte.byte)
}.

(** [BochscpuBackend_t::BochscpuBackend_t()]: every member takes its default
    member initializer; the containers start empty. *)
Definition BochscpuBackend_t_ctor : BochscpuBackend_t :=
  {| DmpParser_ := ∅;
     AggregatedCodeCoverage_ := ∅;
     LastNewCoverage_ := ∅;
     DirtyGpas_ := ∅;
     Breakpoints_ := ∅;
     Cpu_ := nullptr;
     InstructionLimit_ := 0;
     TraceFile_ := nullptr;
     TraceType_ := NoTrace;
     TestcaseResult_ := Ok_t;
     InitialCr3_ := 0;
     RunStats_ := BochscpuRunStats_t_init;
     Seed_ := 0;
     TestcaseBuffer_ := nullptr;
     TestcaseBufferSize_ := 0;
     DirtyPages_ := ∅ |}.

(** Assignment to one data member, the others keep their values. *)
Definition set_DmpParser_ (v : gmap Gpa_t (list Byte.byte))
    (b : BochscpuBackend_t) : BochscpuBackend_t :=
  mkBackend v (AggregatedCodeCoverage_ b) (LastNewCoverage_ b) (DirtyGpas_ b)
    (Breakpoints_ b) (Cpu_ b) (InstructionLimit_ b) (TraceFile_ b)
    (TraceType_ b) (TestcaseResult_ b) (InitialCr3_ b) (RunStats_ b) (Seed_ b)
    (TestcaseBuffer_ b) (TestcaseBufferSize_ b) (DirtyPages_ b).
Definition set_AggregatedCodeCoverage_ (v : gset Gva_t)
    (b : BochscpuBackend_t) : BochscpuBackend_t :=
  mkBackend (DmpParser_ b) v (LastNewCoverage_ b) (DirtyGpas_ b)
    (Breakpoints_ b) (Cpu_ b) (InstructionLimit_ b) (TraceFile_ b)
    (TraceType_ b) (TestcaseResult_ b) (InitialCr3_ b) (RunStats_ b) (Seed_ b)
    (TestcaseBuffer_ b) (TestcaseBufferSize_ b) (DirtyPages_ b).
Definition set_LastNewCoverage_ (v : gset Gva_t)
    (b : BochscpuBackend_t) : BochscpuBackend_t :=
  mkBackend (DmpParser_ b) (AggregatedCodeCoverage_ b) v (DirtyGpas_ b)
    (Breakpoints_ b) (Cpu_ b) (InstructionLimit_ b) (TraceFile_ b)
    (TraceType_ b) (TestcaseResult_ b) (InitialCr3_ b) (RunStats_ b) (Seed_ b)
    (TestcaseBuffer_ b) (TestcaseBufferSize_ b) (DirtyPages_ b).
Definition set_DirtyGpas_ (v : gset Gpa_t)
    (b : BochscpuBackend_t) : BochscpuBackend_t :=
  mkBackend (DmpParser_ b) (AggregatedCodeCoverage_ b) (LastNewCoverage_ b) v
    (Breakpoints_ b) (Cpu_ b) (InstructionLimit_ b) (TraceFile_ b)
    (TraceType_ b) (TestcaseResult_ b) (InitialCr3_ b) (RunStats_ b) (Seed_ b)
    (TestcaseBuffer_ b) (TestcaseBufferSize_ b) (DirtyPages_ b).
Definition set_Breakpoints_ (v : gmap Gva_t BreakpointHandler_t)
    (b : BochscpuBackend_t) : BochscpuBackend_t :=
  mkBackend (DmpParser_ b) (AggregatedCodeCoverage_ b) (LastNewCoverage_ b)
    (DirtyGpas_ b) v (Cpu_ b) (InstructionLimit_ b) (TraceFile_ b)
    (TraceType_ b) (TestcaseResult_ b) (InitialCr3_ b) (RunStats_ b) (Seed_ b)
    (TestcaseBuffer_ b) (TestcaseBufferSize_ b) (DirtyPages_ b).
Definition set_Cpu_ (v : ptr bochscpu_cpu)
    (b : BochscpuBackend_t) : BochscpuBackend_t :=
  mkBackend (DmpParser_ b) (AggregatedCodeCoverage_ b) (LastNewCoverage_ b)
    (DirtyGpas_ b) (Breakpoints_ b) v (InstructionLimit_ b) (TraceFile_ b)
    (TraceType_ b) (TestcaseResult_ b) (InitialCr3_ b) (RunStats_ b) (Seed_ b)
    (TestcaseBuffer_ b) (TestcaseBufferSize_ b) (DirtyPages_ b).
Definition set_InstructionLimit_ (v : Z)
    (b : BochscpuBackend_t) : BochscpuBackend_t :=
  mkBackend (DmpParser_ b) (AggregatedCodeCoverage_ b) (LastNewCoverage_ b)
    (DirtyGpas_ b) (Breakpoints_ b) (Cpu_ b) v (TraceFile_ b) (TraceType_ b)
    (TestcaseResult_ b) (InitialCr3_ b) (RunStats_ b) (Seed_ b)
    (TestcaseBuffer_ b) (TestcaseBufferSize_ b) (DirtyPages_ b).
Definition set_TraceFile_ (v : ptr string)
    (b : BochscpuBackend_t) : BochscpuBackend_t :=
  mkBackend (DmpParser_ b) (AggregatedCodeCoverage_ b) (LastNewCoverage_ b)
    (DirtyGpas_ b) (Breakpoints_ b) (Cpu_ b) (InstructionLimit_ b) v
    (TraceType_ b) (TestcaseResult_ b) (InitialCr3_ b) (RunStats_ b) (Seed_ b)
    (TestcaseBuffer_ b) (TestcaseBufferSize_ b) (DirtyPages_ b).
Definition set_TraceType_ (v : TraceType_t)
    (b : BochscpuBackend_t) : BochscpuBackend_t :=
  mkBackend (DmpParser_ b) (AggregatedCodeCoverage_ b) (LastNewCoverage_ b)
    (DirtyGpas_ b) (Breakpoints_ b) (Cpu_ b) (InstructionLimit_ b)
    (TraceFile_ b) v (TestcaseResult_ b) (InitialCr3_ b) (RunStats_ b)
    (Seed_ b) (TestcaseBuffer_ b) (TestcaseBufferSize_ b) (DirtyPages_ b).
Definition set_TestcaseResult_ (v : TestcaseResult_t)
    (b : BochscpuBackend_t) : BochscpuBackend_t :=
  mkBackend (DmpParser_ b) (AggregatedCodeCoverage_ b) (LastNewCoverage_ b)
    (DirtyGpas_ b) (Breakpoints_ b) (Cpu_ b) (InstructionLimit_ b)
    (TraceFile_ b) (TraceType_ b) v (InitialCr3_ b) (RunStats_ b) (Seed_ b)
    (TestcaseBuffer_ b) (TestcaseBufferSize_ b) (DirtyPages_ b).
Definition set_InitialCr3_ (v : Z)
    (b : BochscpuBackend_t) : BochscpuBackend_t :=
  mkBackend (DmpParser_ b) (AggregatedCodeCoverage_ b) (LastNewCoverage_ b)
    (DirtyGpas_ b) (Breakpoints_ b) (Cpu_ b) (InstructionLimit_ b)
    (TraceFile_ b) (TraceType_ b) (TestcaseResult_ b) v (RunStats_ b)
    (Seed_ b) (TestcaseBuffer_ b) (TestcaseBufferSize_ b) (DirtyPages_ b).
Definition set_RunStats_ (v : BochscpuRunStats_t)
    (b : BochscpuBackend_t) : BochscpuBackend_t :=
  mkBackend (DmpParser_ b) (AggregatedCodeCoverage_ b) (LastNewCoverage_ b)
    (DirtyGpas_ b) (Breakpoints_ b) (Cpu_ b) (InstructionLimit_ b)
    (TraceFile_ b) (TraceType_ b) (TestcaseResult_ b) (InitialCr3_ b) v
    (Seed_ b) (TestcaseBuffer_ b) (TestcaseBufferSize_ b) (DirtyPages_ b).
Definition set_TestcaseBuffer_ (v : ptr (list Byte.byte))
    (b : BochscpuBackend_t) : BochscpuBackend_t :=
  mkBackend (DmpParser_ b) (AggregatedCodeCoverage_ b) (LastNewCoverage_ b)
    (DirtyGpas_ b) (Breakpoints_ b) (Cpu_ b) (InstructionLimit_ b)
    (TraceFile_ b) (TraceType_ b) (TestcaseResult_ b) (InitialCr3_ b)
    (RunStats_ b) (Seed_ b) v (TestcaseBufferSize_ b) (DirtyPages_ b).
Definition set_TestcaseBufferSize_ (v : Z)
    (b : BochscpuBackend_t) : BochscpuBackend_t :=
  mkBackend (DmpParser_ b) (AggregatedCodeCoverage_ b) (LastNewCoverage_ b)
    (DirtyGpas_ b) (Breakpoints_ b) (Cpu_ b) (InstructionLimit_ b)
    (TraceFile_ b) (TraceType_ b) (TestcaseResult_ b) (InitialCr3_ b)
    (RunStats_ b) (Seed_ b) (TestcaseBuffer_ b) v (DirtyPages_ b).
Definition set_DirtyPages_ (v : gmap Gpa_t (list Byte.byte))
    (b : BochscpuBackend_t) : BochscpuBackend_t :=
  mkBackend (DmpParser_ b) (AggregatedCodeCoverage_ b) (LastNewCoverage_ b)
    (DirtyGpas_ b) (Breakpoints_ b) (Cpu_ b) (InstructionLimit_ b)
    (TraceFile_ b) (TraceType_ b) (TestcaseResult_ b) (InitialCr3_ b)
    (RunStats_ b) (Seed_ b) (TestcaseBuffer_ b) (TestcaseBufferSize_ b) v.

(** ** Memory manager *)

(** Modelled from the spec: [GetPhysicalPage] is only declared in the
    header; the content the snapshot holds for the page of an address, if
    the page is part of the snapshot. *)
Definition GetPhysicalPage (PhysicalAddress : Gpa_t) (b : BochscpuBackend_t)
    : option (list Byte.byte) :=
  DmpParser_ b !! Gpa_Align PhysicalAddress.

(** Modelled from the spec: the bytes that back a page are its private copy
    when the page is in the dirty set, the shared snapshot page otherwise. *)
Definition backing_page (PageGpa : Gpa_t) (b : BochscpuBackend_t)
    : option (list Byte.byte) :=
  if decide (PageGpa ∈ DirtyGpas_ b) then DirtyPages_ b !! PageGpa
  else DmpParser_ b !! PageGpa.

(** Modelled from the spec: the body of [PhysTranslate] is not in the
    header.  It resolves a physical address to its backing bytes (the dirty
    copy if the page is in the dirty set, else the snapshot page) from the
    address on to the end of the page, and is null ([None]) when there is no
    such page. *)
Definition PhysTranslate (Gpa : Gpa_t) (b : BochscpuBackend_t)
    : option (list Byte.byte) :=
  drop (Z.to_nat (Gpa_Offset Gpa)) <$> backing_page (Gpa_Align Gpa) b.

(** Modelled from the spec: the body of [DirtyGpa] is not in the header.
    It marks the page of the address dirty, making the private copy the
    first time; it does nothing when the page is dirty already, and fails
    when the snapshot has no such page. *)
Definition DirtyGpa (Gpa : Gpa_t) (b : BochscpuBackend_t)
    : bool * BochscpuBackend_t :=
  let PageGpa := Gpa_Align Gpa in
  if decide (PageGpa ∈ DirtyGpas_ b) then (true, b)
  else match DmpParser_ b !! PageGpa with
       | None => (false, b)
       | Some Content =>
           (true,
            set_DirtyGpas_ ({[PageGpa]} ∪ DirtyGpas_ b)
              (set_DirtyPages_ (<[PageGpa := Content]> (DirtyPages_ b)) b))
       end.

(** [DirtyGpa] called [n] times in a row on the addresses [gpas]. *)
Definition DirtyGpa_each (gpas : list Gpa_t) (b : BochscpuBackend_t)
    : BochscpuBackend_t :=
  foldl (λ acc Gpa, (DirtyGpa Gpa acc).2) b gpas.

(** The pages a byte range touches, first to last. *)
Definition pages_of_range (Gpa : Gpa_t) (Len : Z) : list Gpa_t :=
  if Len <=? 0 then []
  else
    let First := Page.Align (Gpa_U64 Gpa) in
    let Last := Page.Align (Gpa_U64 Gpa + Len - 1) in
    (λ i, mkGpa (First + i * Page.Size)) <$>
      seqZ 0 ((Last - First) / Page.Size + 1).

(** Modelled from the spec: [DirtyPhysicalMemoryRange] dirties every page
    touched by the byte range. *)
Definition DirtyPhysicalMemoryRange (Gpa : Gpa_t) (Len : Z)
    (b : BochscpuBackend_t) : BochscpuBackend_t :=
  DirtyGpa_each (pages_of_range Gpa Len) b.

(** Modelled from the spec: a guest store of one byte, as the engine
    performs it; the page is dirtied, then the byte lands in the private
    copy. *)
Definition WriteByte (Gpa : Gpa_t) (Value : Byte.byte) (b : BochscpuBackend_t)
    : BochscpuBackend_t :=
  let b1 := (DirtyGpa Gpa b).2 in
  set_DirtyPages_
    (alter (λ Content, <[Z.to_nat (Gpa_Offset Gpa) := Value]> Content)
       (Gpa_Align Gpa) (DirtyPages_ b1)) b1.

(** The byte read back at a physical address. *)
Definition ReadByte (Gpa : Gpa_t) (b : BochscpuBackend_t) : option Byte.byte :=
  PhysTranslate Gpa b ≫= head.

(** The byte the snapshot holds at a physical address. *)
Definition SnapshotByte (Gpa : Gpa_t) (b : BochscpuBackend_t)
    : option Byte.byte :=
  GetPhysicalPage Gpa b ≫= (λ Content, Content !! Z.to_nat (Gpa_Offset Gpa)).

(** ** Coverage tracker *)

Definition count_new_coverage (s : BochscpuRunStats_t) : BochscpuRunStats_t :=
  mkRunStats (NumberInstructionsExecuted s) (NumberMemoryAccesses s)
    (wrap64 (AggregatedCodeCoverage s + 1)) (DirtyGpas s).

(** Modelled from the spec: records the address of an executed instruction.
    An address that is not yet in the aggregated coverage is inserted there,
    counted, and inserted into the coverage of the run in flight, which, as
    the header's comment on [LastNewCoverage_] says, holds the new coverage
    of the latest testcase. *)
Definition RecordHit (Gva : Gva_t) (b : BochscpuBackend_t) : BochscpuBackend_t :=
  if decide (Gva ∈ AggregatedCodeCoverage_ b) then b
  else
    set_RunStats_ (count_new_coverage (RunStats_ b))
      (set_LastNewCoverage_ ({[Gva]} ∪ LastNewCoverage_ b)
         (set_AggregatedCodeCoverage_ ({[Gva]} ∪ AggregatedCodeCoverage_ b) b)).

(** Modelled from the spec: [LastNewCoverage] is only declared in the
    header; a read-only view of the member. *)
Definition LastNewCoverage (b : BochscpuBackend_t) : gset Gva_t :=
  LastNewCoverage_ b.

(** Modelled from the spec: the body of [RevokeLastNewCoverage] is not in
    the header.  It erases from the aggregated coverage each address of the
    last run's new coverage, then clears the latter; it reports success. *)
Definition RevokeLastNewCoverage (b : BochscpuBackend_t)
    : bool * BochscpuBackend_t :=
  let Aggregated :=
    foldr (λ Gva acc, acc ∖ {[Gva]}) (AggregatedCodeCoverage_ b)
      (elements (LastNewCoverage_ b)) in
  (true, set_LastNewCoverage_ ∅ (set_AggregatedCodeCoverage_ Aggregated b)).

(** ** Execution control *)


(** Modelled from the spec: the stop request made to the external engine,
    and its reading. *)
Definition request_stop (Cpu : ptr bochscpu_cpu) : ptr bochscpu_cpu :=
  match Cpu with
  | nullptr => nullptr
  | ptr_to c => ptr_to (mkCpu (CpuState c) true)
  end.

Definition stop_requested (b : BochscpuBackend_t) : bool :=
  match Cpu_ b with
  | nullptr => false
  | ptr_to c => StopRequested c
  end.

(** Modelled from the spec: [Stop] records the result as the outcome and
    asks the emulation to halt. *)
Definition Stop (Res : TestcaseResult_t) (b : BochscpuBackend_t)
    : BochscpuBackend_t :=
  set_Cpu_ (request_stop (Cpu_ b)) (set_TestcaseResult_ Res b).

(** ** The hooks and the emulation engine *)

(** What the engine reports while it executes one instruction: physical
    memory accesses, exceptions and loads of the page-table root.  Linear
    accesses are left out, address translation not being modelled; decoded
    opcodes only matter to tracing. *)
Inductive Event : Type :=
  | PhyAccess (PhysicalAddress : Gpa_t) (Len : Z) (IsWrite : bool)
  | Exception (Vector : Z)
  | TlbControl (NewCrValue : Z).

(** One guest instruction: where it sits and what executing it reports. *)
Record Instruction : Type := mkInstruction {
  InsRip : Gva_t;
  InsEvents : list Event
}.

(** The behaviour of the guest on a testcase: the instruction executed at
    each step, for as long as the engine is left running. *)
Definition Guest : Type := nat → Instruction.

(** How a call of [Run] ends in this model: it returns, or the emulation
    is still going when the step budget of the model is used up. *)
Inductive RunOutcome : Type :=
  | Returned (Res : option TestcaseResult_t) (b : BochscpuBackend_t)
  | StillRunning.

Definition count_instruction (s : BochscpuRunStats_t) : BochscpuRunStats_t :=
  mkRunStats (wrap64 (NumberInstructionsExecuted s + 1))
    (NumberMemoryAccesses s) (AggregatedCodeCoverage s) (DirtyGpas s).

Definition count_memory_access (Len : Z) (s : BochscpuRunStats_t)
    : BochscpuRunStats_t :=
  mkRunStats (NumberInstructionsExecuted s)
    (wrap64 (NumberMemoryAccesses s + Len)) (AggregatedCodeCoverage s)
    (DirtyGpas s).

(** Modelled from the spec: the breakpoint dispatch of the before-instruction
    hook; a handler registered for the address runs before emulation
    resumes. *)
Definition dispatch_breakpoint (Rip : Gva_t) (b : BochscpuBackend_t)
    : BochscpuBackend_t :=
  match Breakpoints_ b !! Rip with
  | Some (HandlerStops Res) => Stop Res b
  | Some HandlerContinues => b
  | None => b
  end.

(** Modelled from the spec: the body of [BeforeExecutionHook] is not in the
    header.  In the order the specification gives: check the breakpoint
    table, record coverage for the instruction address, increment the
    instruction counter, and when the counter has reached the configured
    limit signal Timeout and request stop. *)
Definition BeforeExecutionHook (Rip : Gva_t) (b : BochscpuBackend_t)
    : BochscpuBackend_t :=
  let b1 := dispatch_breakpoint Rip b in
  let b2 := RecordHit Rip b1 in
  let b3 := set_RunStats_ (count_instruction (RunStats_ b2)) b2 in
  if InstructionLimit_ b3 <=? NumberInstructionsExecuted (RunStats_ b3)
  then Stop Timeout_t b3
  else b3.

(** Modelled from the spec: the after-instruction hook only emits trace
    records, which are not part of the state modelled here. *)
Definition AfterExecutionHook (b : BochscpuBackend_t) : BochscpuBackend_t := b.

(** Modelled from the spec: the memory-access hook dirties the pages of a
    write and counts the bytes of every access. *)
Definition PhyAccessHook (PhysicalAddress : Gpa_t) (Len : Z) (IsWrite : bool)
    (b : BochscpuBackend_t) : BochscpuBackend_t :=
  let b1 := if IsWrite then DirtyPhysicalMemoryRange PhysicalAddress Len b
            else b in
  set_RunStats_ (count_memory_access Len (RunStats_ b1)) b1.

(** Modelled from the spec: the guest has left the target process when its
    page-table root differs from the initial one; the run then ends
    normally. *)
Definition TlbControlHook (NewCrValue : Z) (b : BochscpuBackend_t)
    : BochscpuBackend_t :=
  if decide (NewCrValue = InitialCr3_ b) then b else Stop Ok_t b.

Section Engine.

(** Which exception vectors are fatal, and the crash reason recorded for
    them, is a policy of the target: the specification leaves it open. *)
Variable FatalVector : Z → option string.

(** Which cpu states are structurally valid is decided by declarations
    that are not available. *)
Variable CpuStateValid : CpuState_t → bool.

(** Modelled from the spec: a fatal vector turns into a Crash result and a
    stop request, a benign one is left to fault servicing. *)
Definition ExceptionHook (Vector : Z) (b : BochscpuBackend_t)
    : BochscpuBackend_t :=
  match FatalVector Vector with
  | Some Reason => Stop (Crash_t Reason) b
  | None => b
  end.

Definition dispatch_event (e : Event) (b : BochscpuBackend_t)
    : BochscpuBackend_t :=
  match e with
  | PhyAccess Gpa Len IsWrite => PhyAccessHook Gpa Len IsWrite b
  | Exception Vector => ExceptionHook Vector b
  | TlbControl NewCrValue => TlbControlHook NewCrValue b
  end.

(** Modelled from the spec: the engine calls the hooks of one instruction
    in program order, and halts as soon as the hook that asked for it has
    returned. *)
Fixpoint run_events (es : list Event) (b : BochscpuBackend_t)
    : BochscpuBackend_t :=
  match es with
  | [] => b
  | e :: es' =>
      let b' := dispatch_event e b in
      if stop_requested b' then b' else run_events es' b'
  end.

(** Modelled from the spec: [bochscpu_cpu_run] belongs to the external
    engine; it executes instruction after instruction until a hook has
    requested a stop.  [fuel] bounds the instructions the model follows;
    [None] means the emulation is still going after that many. *)
Fixpoint bochscpu_cpu_run (fuel : nat) (guest : Guest) (n : nat)
    (b : BochscpuBackend_t) : option BochscpuBackend_t :=
  match fuel with
  | O => None
  | S fuel' =>
      let ins := guest n in
      let b1 := BeforeExecutionHook (InsRip ins) b in
      if stop_requested b1 then Some b1
      else
        let b2 := run_events (InsEvents ins) b1 in
        if stop_requested b2 then Some b2
        else bochscpu_cpu_run fuel' guest (S n) (AfterExecutionHook b2)
  end.

(** Modelled from the spec: the engine starts a run with no stop request
    pending. *)
Definition clear_stop (b : BochscpuBackend_t) : BochscpuBackend_t :=
  match Cpu_ b with
  | nullptr => b
  | ptr_to c => set_Cpu_ (ptr_to (mkCpu (CpuState c) false)) b
  end.

(** Modelled from the spec: the body of [Run] is not in the header.  It
    returns none when there is no engine to start; otherwise it stores the
    testcase buffer, resets the coverage of the last run and the run
    statistics, drives the engine until it halts and returns the recorded
    result. *)
Definition Run (fuel : nat) (guest : Guest) (Buffer : ptr (list Byte.byte))
    (BufferSize : Z) (b : BochscpuBackend_t) : RunOutcome :=
  match Cpu_ b with
  | nullptr => Returned None b
  | ptr_to _ =>
      let b1 := set_TestcaseBufferSize_ BufferSize
                  (set_TestcaseBuffer_ Buffer b) in
      let b2 := set_LastNewCoverage_ ∅ b1 in
      let b3 := set_RunStats_ (Reset (RunStats_ b2)) b2 in
      match bochscpu_cpu_run fuel guest 0 (clear_stop b3) with
      | Some b' => Returned (Some (TestcaseResult_ b')) b'
      | None => StillRunning
      end
  end.

(** Modelled from the spec: [LoadState] applies a cpu state to the engine
    and remembers its page-table root. *)
Definition LoadState (State : CpuState_t) (b : BochscpuBackend_t)
    : BochscpuBackend_t :=
  set_InitialCr3_ (Cr3 State)
    (match Cpu_ b with
     | nullptr => b
     | ptr_to c => set_Cpu_ (ptr_to (mkCpu State (StopRequested c))) b
     end).

(** Modelled from the spec: reverting a page gives up its private copy, so
    that the page is served by the snapshot again. *)
Definition revert_page (PageGpa : Gpa_t) (b : BochscpuBackend_t)
    : BochscpuBackend_t :=
  set_DirtyPages_ (delete PageGpa (DirtyPages_ b)) b.

(** Modelled from the spec: the body of [Restore] is not in the header.  It
    fails on a structurally invalid cpu state; otherwise it reverts the
    dirty pages to the snapshot, clears the dirty set and applies the cpu
    state again. *)
Definition Restore (State : CpuState_t) (b : BochscpuBackend_t)
    : bool * BochscpuBackend_t :=
  if CpuStateValid State then
    let b1 := foldr revert_page b (elements (DirtyGpas_ b)) in
    let b2 := set_DirtyGpas_ ∅ b1 in
    (true, LoadState State b2)
  else (false, b).

(** Modelled from the spec: the body of [Initialize] is not in the header.
    [Image] is what the dump parser made of the memory image, [None] when
    the image is malformed.  On success the snapshot is loaded, an engine is
    created with the cpu state, and limit and trace settings are taken from
    the options; on failure the backend is left as it was. *)
Definition Initialize (Image : option (gmap Gpa_t (list Byte.byte)))
    (Opts : Options_t) (State : CpuState_t) (b : BochscpuBackend_t)
    : bool * BochscpuBackend_t :=
  match Image with
  | None => (false, b)
  | Some Pages =>
      if CpuStateValid State then
        (true,
         set_InitialCr3_ (Cr3 State)
           (set_Cpu_ (ptr_to (mkCpu State false))
              (set_TraceFile_ (TraceTarget Opts)
                 (set_TraceType_ (OptTraceType Opts)
                    (set_InstructionLimit_ (Limit Opts)
                       (set_DmpParser_ Pages b))))))
      else (false, b)
  end.

End Engine.

(** ** What a run observes *)

(** The settings a run does not change, the coverage sets, and the
    instruction counter. *)
Definition settings (b : BochscpuBackend_t)
    : Z * gmap Gva_t BreakpointHandler_t * Z :=
  (InstructionLimit_ b, Breakpoints_ b, InitialCr3_ b).
Definition coverage (b : BochscpuBackend_t) : gset Gva_t * gset Gva_t :=
  (AggregatedCodeCoverage_ b, LastNewCoverage_ b).
Definition executed (b : BochscpuBackend_t) : Z :=
  NumberInstructionsExecuted (RunStats_ b).

(** [b'] differs from [b] at most in the memory manager's members and in
    the statistics other than the instruction counter. *)
Definition same_control (b b' : BochscpuBackend_t) : Prop :=
  Cpu_ b' = Cpu_ b ∧ TestcaseResult_ b' = TestcaseResult_ b ∧
  settings b' = settings b ∧ coverage b' = coverage b ∧
  executed b' = executed b.


(** A handler that stops the run is registered for the address. *)
Definition handler_stops (Table : gmap Gva_t BreakpointHandler_t)
    (Rip : Gva_t) : bool :=
  match Table !! Rip with
  | Some (HandlerStops _) => true
  | Some HandlerContinues => false
  | None => false
  end.

(** The event is a crash (an exception with a fatal vector) or an exit (a
    page-table root other than the initial one). *)
Definition event_stops (FatalVector : Z → option string) (InitialCr3 : Z)
    (e : Event) : bool :=
  match e with
  | PhyAccess _ _ _ => false
  | Exception Vector => bool_decide (is_Some (FatalVector Vector))
  | TlbControl NewCrValue => bool_decide (NewCrValue ≠ InitialCr3)
  end.

(** The guest crashes or exits at this instruction, or a handler stops the
    run there. *)
Definition instruction_stops (FatalVector : Z → option string)
    (b : BochscpuBackend_t) (ins : Instruction) : bool :=
  handler_stops (Breakpoints_ b) (InsRip ins) ||
  existsb (event_stops FatalVector (InitialCr3_ b)) (InsEvents ins).


(** No registered handler reports a timeout of its own. *)
Definition handlers_never_time_out (b : BochscpuBackend_t) : Prop :=
  ∀ Gva : Gva_t, Breakpoints_ b !! Gva ≠ Some (HandlerStops Timeout_t).

(** The aggregated coverage is what it was when the run started, [Before],
    together with the new coverage of the run, which is disjoint from it. *)
Definition coverage_split (Before : gset Gva_t) (b : BochscpuBackend_t) : Prop :=
  AggregatedCodeCoverage_ b = Before ∪ LastNewCoverage_ b ∧
  LastNewCoverage_ b ## Before.

(** The emulation started on [b0] is about to execute its instruction
    number [n] (counting from 0): nothing has stopped it, [n] instructions
    have been counted, and the limit has not been reached. *)
Definition run_going (b0 : BochscpuBackend_t) (n : nat)
    (b : BochscpuBackend_t) : Prop :=
  settings b = settings b0 ∧ Cpu_ b ≠ nullptr ∧ stop_requested b = false ∧
  executed b = Z.of_nat n ∧
  (n = 0%nat ∨ Z.of_nat n < InstructionLimit_ b0).

(** The guest reaches the limit: none of the instructions counted before
    the counter gets to [Limit] ends the run. *)
Definition reaches_limit (FatalVector : Z → option string) (guest : Guest)
    (b0 : BochscpuBackend_t) (n : nat) : Prop :=
  ∀ m : nat, (n ≤ m)%nat → Z.of_nat m + 1 < InstructionLimit_ b0 →
    instruction_stops FatalVector b0 (guest m) = false.

(** How the emulation that was at instruction [n] has ended in [b']: by a
    Timeout with the counter at the limit, or below the limit at an
    instruction that stops the run. *)
Definition run_ended (FatalVector : Z → option string) (guest : Guest)
    (b0 : BochscpuBackend_t) (n : nat) (b' : BochscpuBackend_t) : Prop :=
  settings b' = settings b0 ∧ Cpu_ b' ≠ nullptr ∧ stop_requested b' = true ∧
  ((InstructionLimit_ b0 ≤ executed b' ∧
    executed b' = Z.max (InstructionLimit_ b0) (Z.of_nat n + 1) ∧
    TestcaseResult_ b' = Timeout_t ∧
    reaches_limit FatalVector guest b0 n)
   ∨
   (executed b' < InstructionLimit_ b0 ∧
    ∃ m : nat, (n ≤ m)%nat ∧ executed b' = Z.of_nat m + 1 ∧
      instruction_stops FatalVector b0 (guest m) = true ∧
      (handlers_never_time_out b0 → TestcaseResult_ b' ≠ Timeout_t))).

(** ** Sample states *)

(** A snapshot of two pages. *)
Definition sample_snapshot : gmap Gpa_t (list Byte.byte) :=
  {[ mkGpa 4096 := [Byte.x41; Byte.x42; Byte.x43; Byte.x44];
     mkGpa 8192 := [Byte.x10; Byte.x11] ]}.

Definition sample_state : CpuState_t := mkCpuState 7 4198400 [0; 1; 2].

(** A policy with one fatal vector, the general protection fault, and one
    that accepts every cpu state. *)
Definition sample_policy (Vector : Z) : option string :=
  if decide (Vector = 13) then Some "general-protection"%string else None.
Definition any_state_valid (State : CpuState_t) : bool := true.

(** A backend initialized on the sample snapshot with a limit of three
    instructions, and a handler that reports a crash at one address. *)
Definition sample_backend : BochscpuBackend_t :=
  set_Breakpoints_
    {[ mkGva 4198500 := HandlerStops (Crash_t "assertion-failed") ]}
    (Initialize any_state_valid (Some sample_snapshot)
       (mkOptions 3 NoTrace nullptr) sample_state BochscpuBackend_t_ctor).2.

Definition sample_crashing_guest : Guest :=
  λ n, mkInstruction (mkGva (4198400 + Z.of_nat n))
         (if decide (n = 1%nat) then [Exception 13] else []).


(** The same after the guest has stored a byte into the first page. *)
Definition sample_dirtied : BochscpuBackend_t :=
  WriteByte (mkGpa 4097) Byte.xff sample_backend.

(** ** The report of [Print], line by line *)

(** The two heading lines and the three lines of figures, as [Print] writes
    them. *)
Definition Print_banner : string :=
  "--------------------------------------------------" +:+ newline +:+
  "Run stats:" +:+ newline.
Definition instructions_line (s : BochscpuRunStats_t) : string :=
  "Instructions executed: " +:+ fmt_u64 (NumberInstructionsExecuted s) +:+
    " (" +:+ fmt_u64 (AggregatedCodeCoverage s) +:+ " unique)" +:+ newline.
Definition dirty_pages_line (s : BochscpuRunStats_t) : string :=
  "          Dirty pages: " +:+ fmt_u64 (DirtyMemoryBytes s) +:+
    " bytes (" +:+ fmt_u64 (DirtyMemoryMb s) +:+ " MB)" +:+ newline.
Definition memory_accesses_line (s : BochscpuRunStats_t) : string :=
  "      Memory accesses: " +:+ fmt_u64 (NumberMemoryAccesses s) +:+
    " bytes (" +:+ fmt_u64 (MemoryAccessMb s) +:+ " MB)" +:+ newline.

(** The text of a report showing the given six figures, laid out as
    [Print] lays it out. *)
Definition report (Instructions Unique DirtyBytes DirtyMb AccessBytes AccessMb : Z)
    : string :=
  "--------------------------------------------------" +:+ newline +:+
  "Run stats:" +:+ newline +:+
  "Instructions executed: " +:+ fmt_u64 Instructions +:+
    " (" +:+ fmt_u64 Unique +:+ " unique)" +:+ newline +:+
  "          Dirty pages: " +:+ fmt_u64 DirtyBytes +:+
    " bytes (" +:+ fmt_u64 DirtyMb +:+ " MB)" +:+ newline +:+
  "      Memory accesses: " +:+ fmt_u64 AccessBytes +:+
    " bytes (" +:+ fmt_u64 AccessMb +:+ " MB)" +:+ newline.

(** Every counter holds a [uint64_t] value. *)
Definition stats_in_range (s : BochscpuRunStats_t) : Prop :=
  is_uint64 (NumberInstructionsExecuted s) ∧
  is_uint64 (NumberMemoryAccesses s) ∧
  is_uint64 (AggregatedCodeCoverage s) ∧
  is_uint64 (DirtyGpas s).

(** Decimal digits, strings made of digits only, and strings whose first
    character is not a digit. *)
Definition is_digit (c : Ascii.ascii) : bool :=
  (48 <=? Ascii.nat_of_ascii c)%nat && (Ascii.nat_of_ascii c <=? 57)%nat.
Fixpoint digits_only (s : string) : bool :=
  match s with
  | EmptyString => true
  | String c s' => is_digit c && digits_only s'
  end.
Definition starts_off_digit (s : string) : bool :=
  match s with
  | EmptyString => false
  | String c _ => negb (is_digit c)
  end.

(** Number of occurrences of a character in a string. *)
Fixpoint count_char (c : Ascii.ascii) (s : string) : nat :=
  match s with
  | EmptyString => O
  | String c' s' =>
      ((if Ascii.eqb c c' then 1 else 0) + count_char c s')%nat
  end.

(** Statistics with the smallest page count whose byte size does not fit
    64 bits, and two statistics that differ in every counter. *)
Definition stats_at_overflow : BochscpuRunStats_t :=
  mkRunStats 10 2097152 4 (2 ^ 52).
Definition stats_of_another_run : BochscpuRunStats_t :=
  mkRunStats 1201 641 38 4.

(** * Properties *)

(** ** Machine integers *)

Lemma wrap64_range z : is_uint64 (wrap64 z).
Proof. unfold is_uint64, wrap64. apply Z.mod_pos_bound. lia. Qed.

Lemma wrap64_small z : is_uint64 z → wrap64 z = z.
Proof. unfold is_uint64, wrap64. intros H. apply Z.mod_small. lia. Qed.

Lemma to_size_t_small z : is_uint64 z → to_size_t z = z.
Proof.
  unfold is_uint64, to_size_t, size_t_bits. intros H.
  apply Z.mod_small. lia.
Qed.

(** ** Run statistics *)

(** C9.  For every starting value of the run statistics, [Reset] sets
    [NumberInstructionsExecuted] and [NumberMemoryAccesses] to zero and
    leaves [AggregatedCodeCoverage] and [DirtyGpas] as they were. *)
Theorem Reset_frame (s : BochscpuRunStats_t) :
  NumberInstructionsExecuted (Reset s) = 0 ∧
  NumberMemoryAccesses (Reset s) = 0 ∧
  AggregatedCodeCoverage (Reset s) = AggregatedCodeCoverage s ∧
  DirtyGpas (Reset s) = DirtyGpas s.
Proof. destruct s as [n m c d]. cbn. auto. Qed.

(** C1, as stated, fails: after [Reset] the unique-coverage count and the
    dirtied-page count of [stats_after_a_run] still read 37 and 3. *)
Lemma Reset_keeps_coverage_and_dirty_counts :
  ¬ all_counters_zero (Reset stats_after_a_run) ∧
  AggregatedCodeCoverage (Reset stats_after_a_run) = 37 ∧
  DirtyGpas (Reset stats_after_a_run) = 3.
Proof.
  split; [| split; reflexivity].
  intros (_ & _ & Hcov & _). cbn in Hcov. discriminate Hcov.
Qed.

(** C1, amended.  For every value of the run statistics, resetting them
    sets the instructions-executed and the memory-accesses counters to zero;
    all four counters read zero afterwards exactly when the unique-coverage
    count and the dirtied-page count were zero before. *)
Theorem Reset_zeroes_the_per_run_counters (s : BochscpuRunStats_t) :
  NumberInstructionsExecuted (Reset s) = 0 ∧
  NumberMemoryAccesses (Reset s) = 0 ∧
  (all_counters_zero (Reset s) ↔
     AggregatedCodeCoverage s = 0 ∧ DirtyGpas s = 0).
Proof.
  destruct s as [n m c d]. unfold all_counters_zero. cbn.
  repeat split; tauto.
Qed.

Lemma DirtyMemoryBytes_small (s : BochscpuRunStats_t) :
  0 ≤ DirtyGpas s < 2 ^ 52 →
  DirtyMemoryBytes s = DirtyGpas s * Page.Size.
Proof.
  intros H. unfold DirtyMemoryBytes. apply wrap64_small.
  unfold is_uint64, Page.Size. lia.
Qed.

Lemma fmt_u64_inj (a b : Z) : 0 ≤ a → 0 ≤ b → fmt_u64 a = fmt_u64 b → a = b.
Proof.
  intros Ha Hb H. unfold fmt_u64 in H.
  assert (Hnil : ∀ n : N, N.to_uint n ≠ Decimal.Nil).
  { intros [| p]; [discriminate |]. apply DecimalPos.Unsigned.to_uint_nonnil. }
  assert (Hu : N.to_uint (Z.to_N a) = N.to_uint (Z.to_N b)).
  { pose proof (NilZero.usu _ (Hnil (Z.to_N a))) as H1.
    pose proof (NilZero.usu _ (Hnil (Z.to_N b))) as H2.
    rewrite H in H1. congruence. }
  apply DecimalN.Unsigned.to_uint_inj in Hu. by apply Z2N.inj.
Qed.

(** What [Print] writes is the report of six figures: the two counters of
    the first line, the byte and MB figures of dirty memory, and the byte
    and MB figures of memory accesses. *)
Lemma Print_report (s : BochscpuRunStats_t) :
  Print s =
    report (NumberInstructionsExecuted s) (AggregatedCodeCoverage s)
      (DirtyMemoryBytes s) (DirtyMemoryMb s)
      (NumberMemoryAccesses s) (MemoryAccessMb s).
Proof. reflexivity. Qed.

(** C8.  For every value of the run statistics, the report [Print] writes
    shows as dirty-memory byte figure [DirtyGpas * Page::Size] (in 64 bits)
    and as dirty-memory MB figure [DirtyGpas / Page::Size], the page count
    divided by 4096; so whenever [0 < DirtyGpas < 4096] the report shows the
    exact byte count, which is not zero and is not printed as 0, next to
    0 MB, and from 256 pages on the MB figure differs from the byte figure
    divided by 2^20. *)
Theorem Print_dirty_memory_figures (s : BochscpuRunStats_t) :
  Print s =
    report (NumberInstructionsExecuted s) (AggregatedCodeCoverage s)
      ((DirtyGpas s * Page.Size) mod 2 ^ 64) (DirtyGpas s / 4096)
      (NumberMemoryAccesses s) (NumberMemoryAccesses s / _1MB) ∧
  DirtyMemoryBytes s = (DirtyGpas s * Page.Size) mod 2 ^ 64 ∧
  DirtyMemoryMb s = DirtyGpas s / 4096 ∧
  (0 < DirtyGpas s < 4096 →
     Print s =
       report (NumberInstructionsExecuted s) (AggregatedCodeCoverage s)
         (DirtyGpas s * 4096) 0
         (NumberMemoryAccesses s) (NumberMemoryAccesses s / _1MB) ∧
     DirtyGpas s * 4096 ≠ 0 ∧
     fmt_u64 (DirtyGpas s * 4096) ≠ "0"%string ∧
     DirtyMemoryMb s = 0 ∧ fmt_u64 (DirtyMemoryMb s) = "0"%string ∧
     DirtyMemoryBytes s = DirtyGpas s * 4096 ∧ DirtyMemoryBytes s ≠ 0) ∧
  (256 ≤ DirtyGpas s < 4096 →
     DirtyMemoryMb s ≠ DirtyMemoryBytes s / 2 ^ 20).
Proof.
  split; [apply Print_report |].
  split; [reflexivity |]. split; [reflexivity |].
  assert (Hmb : 0 < DirtyGpas s < 4096 → DirtyMemoryMb s = 0).
  { intros H. unfold DirtyMemoryMb, Page.Size. apply Z.div_small. lia. }
  split.
  - intros H. pose proof (Hmb H) as Hz.
    assert (Hb : DirtyMemoryBytes s = DirtyGpas s * 4096).
    { apply DirtyMemoryBytes_small. lia. }
    split; [rewrite Print_report, Hz, Hb; reflexivity |].
    split; [lia |]. split.
    { intros E. apply (fmt_u64_inj _ 0) in E; lia. }
    rewrite Hz, Hb. split; [reflexivity |]. split; [reflexivity |].
    split; [reflexivity | lia].
  - intros H. rewrite Hmb by lia.
    rewrite DirtyMemoryBytes_small by lia. unfold Page.Size.
    assert (1 ≤ DirtyGpas s * 4096 / 2 ^ 20); [| lia].
    apply Z.div_le_lower_bound; lia.
Qed.

Example Print_stats_after_a_run :
  Print stats_after_a_run =
    ("--------------------------------------------------" +:+ newline +:+
     "Run stats:" +:+ newline +:+
     "Instructions executed: 1200 (37 unique)" +:+ newline +:+
     "          Dirty pages: 12288 bytes (0 MB)" +:+ newline +:+
     "      Memory accesses: 640 bytes (0 MB)" +:+ newline)%string.
Proof. reflexivity. Qed.

(** At three dirty pages the report shows 12288 bytes and 0 MB. *)
Lemma Print_dirty_memory_figures_witness :
  0 < DirtyGpas stats_after_a_run < 4096 ∧
  Print stats_after_a_run = report 1200 37 12288 0 640 0 ∧
  DirtyMemoryBytes stats_after_a_run = 12288 ∧
  DirtyMemoryMb stats_after_a_run = 0.
Proof.
  pose proof (Print_dirty_memory_figures stats_after_a_run)
    as (_ & _ & _ & Hsmall & _).
  assert (H : 0 < DirtyGpas stats_after_a_run < 4096) by (cbn; lia).
  destruct (Hsmall H) as (Hprint & _ & _ & Hmb & _ & Hb & _).
  split; [exact H |]. split; [exact Hprint |].
  split; [exact Hb | exact Hmb].
Defined.

(** ** Hashers *)



(** ** Construction *)

(** C10.  A newly constructed backend has the result Ok, instruction limit
    0, trace type [NoTrace], no trace file, a null cpu handle, an initial
    CR3 of 0, and no testcase buffer (null pointer, size 0). *)
Theorem new_backend_members :
  TestcaseResult_ BochscpuBackend_t_ctor = Ok_t ∧
  InstructionLimit_ BochscpuBackend_t_ctor = 0 ∧
  TraceType_ BochscpuBackend_t_ctor = NoTrace ∧
  TraceFile_ BochscpuBackend_t_ctor = nullptr ∧
  Cpu_ BochscpuBackend_t_ctor = nullptr ∧
  InitialCr3_ BochscpuBackend_t_ctor = 0 ∧
  TestcaseBuffer_ BochscpuBackend_t_ctor = nullptr ∧
  TestcaseBufferSize_ BochscpuBackend_t_ctor = 0.
Proof. repeat split. Qed.

(** ** Memory manager *)

Lemma filter_eq_absent {A : Type} `{EqDecision A} (x : A) (l : list A) :
  x ∉ l → filter (λ y, y = x) l = [].
Proof.
  induction l as [| y l IH]; [done |]. intros Hx.
  apply not_elem_of_cons in Hx as [Hne Hx].
  rewrite filter_cons_False by congruence. by apply IH.
Qed.

Lemma filter_eq_length_NoDup {A : Type} `{EqDecision A} (x : A) (l : list A) :
  NoDup l → x ∈ l → length (filter (λ y, y = x) l) = 1%nat.
Proof.
  induction 1 as [| y l Hy Hnd IH]; intros Hin.
  - by apply elem_of_nil in Hin.
  - destruct (decide (y = x)) as [-> | Hne].
    + rewrite filter_cons_True by done. by rewrite filter_eq_absent.
    + rewrite filter_cons_False by done.
      apply IH. apply elem_of_cons in Hin as [-> | Hin]; done.
Qed.

Lemma DirtyGpa_dirty (Gpa : Gpa_t) (b : BochscpuBackend_t) :
  Gpa_Align Gpa ∈ DirtyGpas_ b → DirtyGpa Gpa b = (true, b).
Proof. intros H. unfold DirtyGpa. by rewrite decide_True. Qed.

Lemma DirtyGpa_fresh (Gpa : Gpa_t) (Content : list Byte.byte)
    (b : BochscpuBackend_t) :
  Gpa_Align Gpa ∉ DirtyGpas_ b →
  DmpParser_ b !! Gpa_Align Gpa = Some Content →
  DirtyGpa Gpa b =
    (true,
     set_DirtyGpas_ ({[Gpa_Align Gpa]} ∪ DirtyGpas_ b)
       (set_DirtyPages_ (<[Gpa_Align Gpa := Content]> (DirtyPages_ b)) b)).
Proof. intros H1 H2. unfold DirtyGpa. rewrite decide_False by done. by rewrite H2. Qed.

Lemma DirtyGpa_missing (Gpa : Gpa_t) (b : BochscpuBackend_t) :
  Gpa_Align Gpa ∉ DirtyGpas_ b →
  DmpParser_ b !! Gpa_Align Gpa = None →
  DirtyGpa Gpa b = (false, b).
Proof. intros H1 H2. unfold DirtyGpa. rewrite decide_False by done. by rewrite H2. Qed.

(** After a successful call the page is in the dirty set, which has grown
    by at most that page. *)
Lemma DirtyGpa_success (Gpa : Gpa_t) (b : BochscpuBackend_t) :
  is_Some (DmpParser_ b !! Gpa_Align Gpa) →
  (DirtyGpa Gpa b).1 = true ∧
  DirtyGpas_ (DirtyGpa Gpa b).2 = {[Gpa_Align Gpa]} ∪ DirtyGpas_ b.
Proof.
  intros [Content HC].
  destruct (decide (Gpa_Align Gpa ∈ DirtyGpas_ b)) as [Hin | Hout].
  - rewrite DirtyGpa_dirty by done. cbn. split; [done |].
    symmetry. by apply subseteq_union_1_L, singleton_subseteq_l.
  - rewrite (DirtyGpa_fresh _ Content) by done. done.
Qed.

(** Further calls on addresses of a page that is dirty change nothing. *)
Lemma DirtyGpa_each_dirty (gpas : list Gpa_t) (PageGpa : Gpa_t)
    (b : BochscpuBackend_t) :
  Forall (λ g, Gpa_Align g = PageGpa) gpas →
  PageGpa ∈ DirtyGpas_ b →
  DirtyGpa_each gpas b = b.
Proof.
  intros Hall Hin. induction Hall as [| g gpas Hg _ IH]; [done |].
  unfold DirtyGpa_each in *. cbn. rewrite DirtyGpa_dirty by by rewrite Hg.
  exact IH.
Qed.

(** C5.  [DirtyGpa] is idempotent.  In whatever state, a call on an address
    whose page is already in the dirty set succeeds and changes nothing, so
    that what the guest has stored in the page since is kept.  It fails
    only when the page does not exist in the snapshot (and then changes
    nothing).  When the page exists, the first call succeeds, every later
    call on an address of the same page is a no-op that succeeds, and after
    the [N > 1] calls the dirty set is the former one with that page added
    and lists the page exactly once. *)
Theorem DirtyGpa_idempotent (b : BochscpuBackend_t) (Gpa : Gpa_t)
    (gpas : list Gpa_t)
    (Hsame : Forall (λ g, Gpa_Align g = Gpa_Align Gpa) gpas) :
  (∀ (b' : BochscpuBackend_t) (Gpa' : Gpa_t),
     Gpa_Align Gpa' = Gpa_Align Gpa →
     Gpa_Align Gpa ∈ DirtyGpas_ b' →
     DirtyGpa Gpa' b' = (true, b')) ∧
  ((DirtyGpa Gpa b).1 = false →
     DmpParser_ b !! Gpa_Align Gpa = None ∧ (DirtyGpa Gpa b).2 = b) ∧
  (is_Some (DmpParser_ b !! Gpa_Align Gpa) →
     (DirtyGpa Gpa b).1 = true ∧
     Forall (λ g, DirtyGpa g (DirtyGpa Gpa b).2 = (true, (DirtyGpa Gpa b).2))
       gpas ∧
     DirtyGpa_each (Gpa :: gpas) b = (DirtyGpa Gpa b).2 ∧
     DirtyGpas_ (DirtyGpa_each (Gpa :: gpas) b)
       = {[Gpa_Align Gpa]} ∪ DirtyGpas_ b ∧
     length (filter (λ p, p = Gpa_Align Gpa)
               (elements (DirtyGpas_ (DirtyGpa_each (Gpa :: gpas) b))))
       = 1%nat).
Proof.
  split; [| split].
  - intros b' Gpa' Hpage Hin. apply DirtyGpa_dirty. by rewrite Hpage.
  - unfold DirtyGpa.
    destruct (decide (Gpa_Align Gpa ∈ DirtyGpas_ b)); [done |].
    destruct (DmpParser_ b !! Gpa_Align Gpa); done.
  - intros Hsnap. destruct (DirtyGpa_success Gpa b Hsnap) as [Hok Hset].
    assert (Hin : Gpa_Align Gpa ∈ DirtyGpas_ (DirtyGpa Gpa b).2)
      by (rewrite Hset; apply elem_of_union_l; by apply elem_of_singleton_2).
    assert (Heach : DirtyGpa_each (Gpa :: gpas) b = (DirtyGpa Gpa b).2)
      by (exact (DirtyGpa_each_dirty gpas _ _ Hsame Hin)).
    split; [exact Hok |]. split.
    { eapply Forall_impl; [exact Hsame |]. intros g Hg.
      apply DirtyGpa_dirty. by rewrite Hg. }
    split; [exact Heach |]. rewrite Heach. split; [exact Hset |].
    apply filter_eq_length_NoDup; [apply NoDup_elements |].
    by apply elem_of_elements.
Qed.

(** Three calls on addresses of the page at 4096 of the sample backend; and
    a call on that page after the guest has stored a byte in it, which
    leaves the stored byte in place. *)
Lemma DirtyGpa_idempotent_witness :
  Forall (λ g, Gpa_Align g = Gpa_Align (mkGpa 4097))
    [mkGpa 4100; mkGpa 8191] ∧
  DirtyGpa_each [mkGpa 4097; mkGpa 4100; mkGpa 8191] sample_backend
    = (DirtyGpa (mkGpa 4097) sample_backend).2 ∧
  length (filter (λ p, p = Gpa_Align (mkGpa 4097))
            (elements (DirtyGpas_
               (DirtyGpa_each [mkGpa 4097; mkGpa 4100; mkGpa 8191]
                  sample_backend))))
    = 1%nat ∧
  DirtyGpa (mkGpa 4100) sample_dirtied = (true, sample_dirtied) ∧
  ReadByte (mkGpa 4097) (DirtyGpa (mkGpa 4100) sample_dirtied).2
    = Some Byte.xff.
Proof.
  assert (Hsame : Forall (λ g, Gpa_Align g = Gpa_Align (mkGpa 4097))
                    [mkGpa 4100; mkGpa 8191])
    by (repeat constructor).
  assert (Hsnap : is_Some (DmpParser_ sample_backend
                             !! Gpa_Align (mkGpa 4097)))
    by (eexists; reflexivity).
  destruct (DirtyGpa_idempotent sample_backend (mkGpa 4097) _ Hsame)
    as (Hdirty & _ & Hpresent).
  destruct (Hpresent Hsnap) as (_ & _ & Heach & _ & Hone).
  assert (Hin : Gpa_Align (mkGpa 4097) ∈ DirtyGpas_ sample_dirtied)
    by (vm_compute; constructor).
  assert (Hnoop : DirtyGpa (mkGpa 4100) sample_dirtied = (true, sample_dirtied))
    by (apply Hdirty; [reflexivity | exact Hin]).
  split; [exact Hsame |]. split; [exact Heach |]. split; [exact Hone |].
  split; [exact Hnoop |]. rewrite Hnoop. reflexivity.
Defined.

Lemma revert_pages_frame (l : list Gpa_t) (b : BochscpuBackend_t) :
  DmpParser_ (foldr revert_page b l) = DmpParser_ b ∧
  DirtyGpas_ (foldr revert_page b l) = DirtyGpas_ b.
Proof. induction l as [| p l [IH1 IH2]]; [done |]. cbn. done. Qed.

Lemma revert_pages_copies (l : list Gpa_t) (b : BochscpuBackend_t)
    (PageGpa : Gpa_t) :
  DirtyPages_ (foldr revert_page b l) !! PageGpa =
    if decide (PageGpa ∈ l) then None else DirtyPages_ b !! PageGpa.
Proof.
  induction l as [| p l IH]; cbn.
  - rewrite decide_False; [done | apply not_elem_of_nil].
  - destruct (decide (p = PageGpa)) as [-> | Hne].
    + rewrite lookup_delete_eq. rewrite decide_True; [done | left].
    + rewrite lookup_delete_ne by done. rewrite IH.
      destruct (decide (PageGpa ∈ l)) as [Hin | Hout].
      * rewrite decide_True; [done | by right].
      * rewrite decide_False; [done |].
        intros [Heq | Hin]%elem_of_cons; congruence.
Qed.

Lemma LoadState_memory (State : CpuState_t) (b : BochscpuBackend_t) :
  DmpParser_ (LoadState State b) = DmpParser_ b ∧
  DirtyGpas_ (LoadState State b) = DirtyGpas_ b ∧
  DirtyPages_ (LoadState State b) = DirtyPages_ b.
Proof. unfold LoadState. destruct (Cpu_ b); done. Qed.

Lemma head_drop_lookup {A : Type} (n : nat) (l : list A) :
  head (drop n l) = l !! n.
Proof. rewrite head_lookup, lookup_drop. f_equal. lia. Qed.

(** When no page is dirty, every address reads what the snapshot holds. *)
Lemma clean_reads_snapshot (Gpa : Gpa_t) (b : BochscpuBackend_t) :
  DirtyGpas_ b = ∅ →
  backing_page (Gpa_Align Gpa) b = GetPhysicalPage Gpa b ∧
  ReadByte Gpa b = SnapshotByte Gpa b.
Proof.
  intros Hclean.
  assert (Hpage : backing_page (Gpa_Align Gpa) b = GetPhysicalPage Gpa b).
  { unfold backing_page, GetPhysicalPage. rewrite Hclean.
    rewrite decide_False; [done | apply not_elem_of_empty]. }
  split; [exact Hpage |].
  unfold ReadByte, SnapshotByte, PhysTranslate. rewrite Hpage.
  destruct (GetPhysicalPage Gpa b) as [Content |]; [| done].
  cbn. apply head_drop_lookup.
Qed.

(** C4.  After [Restore] has returned successfully the dirty set is empty,
    the snapshot is the one held before, and every page that was in the
    dirty set is served by the snapshot again: its private copy is gone, its
    backing bytes are the snapshot's page, and every address in it reads
    back the snapshot's byte. *)
Theorem Restore_reverts_dirty_pages (CpuStateValid : CpuState_t → bool)
    (State : CpuState_t) (b b' : BochscpuBackend_t)
    (Hok : Restore CpuStateValid State b = (true, b')) :
  DirtyGpas_ b' = ∅ ∧
  DmpParser_ b' = DmpParser_ b ∧
  ∀ Gpa : Gpa_t, Gpa_Align Gpa ∈ DirtyGpas_ b →
    DirtyPages_ b' !! Gpa_Align Gpa = None ∧
    backing_page (Gpa_Align Gpa) b' = GetPhysicalPage Gpa b ∧
    PhysTranslate Gpa b'
      = drop (Z.to_nat (Gpa_Offset Gpa)) <$> GetPhysicalPage Gpa b ∧
    ReadByte Gpa b' = SnapshotByte Gpa b.
Proof.
  unfold Restore in Hok. destruct (CpuStateValid State); [| discriminate].
  injection Hok as <-.
  set (b1 := foldr revert_page b (elements (DirtyGpas_ b))).
  destruct (LoadState_memory State (set_DirtyGpas_ ∅ b1)) as (Hd & Hs & Hp).
  destruct (revert_pages_frame (elements (DirtyGpas_ b)) b) as [Hd1 _].
  assert (Hclean : DirtyGpas_ (LoadState State (set_DirtyGpas_ ∅ b1)) = ∅)
    by (rewrite Hs; done).
  assert (Hsnap : DmpParser_ (LoadState State (set_DirtyGpas_ ∅ b1))
                  = DmpParser_ b) by (rewrite Hd; exact Hd1).
  split; [exact Hclean |]. split; [exact Hsnap |].
  intros Gpa Hdirty.
  destruct (clean_reads_snapshot Gpa _ Hclean) as [Hpage Hbyte].
  assert (Hget : GetPhysicalPage Gpa (LoadState State (set_DirtyGpas_ ∅ b1))
                 = GetPhysicalPage Gpa b)
    by (unfold GetPhysicalPage; by rewrite Hsnap).
  split.
  { rewrite Hp. cbn. fold b1. unfold b1. rewrite revert_pages_copies.
    rewrite decide_True; [done | by apply elem_of_elements]. }
  split; [by rewrite Hpage |].
  split; [unfold PhysTranslate; by rewrite Hpage, Hget |].
  rewrite Hbyte. unfold SnapshotByte. by rewrite Hget.
Qed.

(** The stored byte is read back before the restore, the snapshot's byte
    after it. *)
Lemma Restore_reverts_dirty_pages_witness :
  ReadByte (mkGpa 4097) sample_dirtied = Some Byte.xff ∧
  DirtyGpas_ (Restore any_state_valid sample_state sample_dirtied).2 = ∅ ∧
  ReadByte (mkGpa 4097) (Restore any_state_valid sample_state sample_dirtied).2
    = Some Byte.x42.
Proof.
  assert (Hok : Restore any_state_valid sample_state sample_dirtied
                = (true, (Restore any_state_valid sample_state sample_dirtied).2))
    by reflexivity.
  destruct (Restore_reverts_dirty_pages _ _ _ _ Hok) as (Hempty & _ & Hpages).
  assert (Hdirty : Gpa_Align (mkGpa 4097) ∈ DirtyGpas_ sample_dirtied)
    by (vm_compute; constructor).
  destruct (Hpages (mkGpa 4097) Hdirty) as (_ & _ & _ & Hbyte).
  split; [reflexivity |]. split; [exact Hempty |].
  rewrite Hbyte. reflexivity.
Defined.

(** ** Coverage tracker *)

Lemma erase_each (l : list Gva_t) (X : gset Gva_t) :
  foldr (λ Gva acc, acc ∖ {[Gva]}) X l = X ∖ list_to_set l.
Proof.
  induction l as [| x l IH]; cbn.
  - apply leibniz_equiv. rewrite difference_empty. done.
  - rewrite IH. apply leibniz_equiv. intros y.
    rewrite !elem_of_difference, elem_of_union, elem_of_singleton. tauto.
Qed.

Lemma RevokeLastNewCoverage_sets (b : BochscpuBackend_t) :
  AggregatedCodeCoverage_ (RevokeLastNewCoverage b).2
    = AggregatedCodeCoverage_ b ∖ LastNewCoverage_ b ∧
  LastNewCoverage_ (RevokeLastNewCoverage b).2 = ∅.
Proof.
  unfold RevokeLastNewCoverage. cbn. split; [| done].
  rewrite erase_each. by rewrite list_to_set_elements_L.
Qed.

Lemma RevokeLastNewCoverage_again (b : BochscpuBackend_t) :
  RevokeLastNewCoverage (RevokeLastNewCoverage b).2
    = (true, (RevokeLastNewCoverage b).2).
Proof. unfold RevokeLastNewCoverage. cbn. by rewrite elements_empty. Qed.

Lemma coverage_split_revoke (Before : gset Gva_t) (b : BochscpuBackend_t) :
  coverage_split Before b →
  AggregatedCodeCoverage_ (RevokeLastNewCoverage b).2 = Before.
Proof.
  intros [Hagg Hdisj].
  destruct (RevokeLastNewCoverage_sets b) as [-> _]. rewrite Hagg.
  apply leibniz_equiv. intros y.
  rewrite elem_of_difference, elem_of_union.
  split; [intros [[H | H] Hn]; done |].
  intros H. split; [by left |]. intros Hy. exact (Hdisj y Hy H).
Qed.

(** ** The hooks *)

Lemma same_control_refl (b : BochscpuBackend_t) : same_control b b.
Proof. by repeat split. Qed.

Lemma same_control_trans (b1 b2 b3 : BochscpuBackend_t) :
  same_control b1 b2 → same_control b2 b3 → same_control b1 b3.
Proof.
  intros (H1 & H2 & H3 & H4 & H5) (K1 & K2 & K3 & K4 & K5).
  repeat split; congruence.
Qed.

Lemma DirtyGpa_control (Gpa : Gpa_t) (b : BochscpuBackend_t) :
  same_control b (DirtyGpa Gpa b).2.
Proof.
  unfold DirtyGpa. destruct (decide (Gpa_Align Gpa ∈ DirtyGpas_ b)).
  - apply same_control_refl.
  - destruct (DmpParser_ b !! Gpa_Align Gpa); by repeat split.
Qed.

Lemma DirtyGpa_each_control (gpas : list Gpa_t) (b : BochscpuBackend_t) :
  same_control b (DirtyGpa_each gpas b).
Proof.
  revert b. induction gpas as [| g gpas IH]; intros b.
  - apply same_control_refl.
  - eapply same_control_trans; [apply (DirtyGpa_control g) |]. apply IH.
Qed.

Lemma PhyAccessHook_control (Gpa : Gpa_t) (Len : Z) (IsWrite : bool)
    (b : BochscpuBackend_t) :
  same_control b (PhyAccessHook Gpa Len IsWrite b).
Proof.
  unfold PhyAccessHook.
  set (b1 := if IsWrite then DirtyPhysicalMemoryRange Gpa Len b else b).
  assert (H1 : same_control b b1).
  { subst b1. destruct IsWrite; [apply DirtyGpa_each_control |].
    apply same_control_refl. }
  eapply same_control_trans; [exact H1 |]. by repeat split.
Qed.

Lemma Stop_control (Res : TestcaseResult_t) (b : BochscpuBackend_t) :
  TestcaseResult_ (Stop Res b) = Res ∧
  settings (Stop Res b) = settings b ∧
  coverage (Stop Res b) = coverage b ∧
  executed (Stop Res b) = executed b ∧
  (Cpu_ b ≠ nullptr →
     Cpu_ (Stop Res b) ≠ nullptr ∧ stop_requested (Stop Res b) = true).
Proof.
  repeat split; unfold Stop, stop_requested; cbn; destruct (Cpu_ b); done.
Qed.

Section Hooks.

Variable FatalVector : Z → option string.

(** What one event does to a run that is going: it changes neither
    settings, coverage nor the instruction counter; a crash or an exit ends
    the run with a result other than Timeout, any other event lets it go
    on. *)
Lemma dispatch_event_spec (e : Event) (b : BochscpuBackend_t) :
  Cpu_ b ≠ nullptr → stop_requested b = false →
  settings (dispatch_event FatalVector e b) = settings b ∧
  coverage (dispatch_event FatalVector e b) = coverage b ∧
  executed (dispatch_event FatalVector e b) = executed b ∧
  Cpu_ (dispatch_event FatalVector e b) ≠ nullptr ∧
  stop_requested (dispatch_event FatalVector e b)
    = event_stops FatalVector (InitialCr3_ b) e ∧
  (event_stops FatalVector (InitialCr3_ b) e = true →
     TestcaseResult_ (dispatch_event FatalVector e b) ≠ Timeout_t).
Proof.
  intros Hcpu Hrun.
  destruct e as [Gpa Len W | Vector | NewCr];
    cbv beta iota delta [dispatch_event event_stops].
  - destruct (PhyAccessHook_control Gpa Len W b) as (H1 & H2 & H3 & H4 & H5).
    unfold stop_requested in *. rewrite H1.
    repeat split; try done.
  - unfold ExceptionHook. destruct (FatalVector Vector) as [Reason |].
    + destruct (Stop_control (Crash_t Reason) b) as (H1 & H2 & H3 & H4 & H5).
      destruct (H5 Hcpu) as [H6 H7]. rewrite H1, H7.
      repeat split; done.
    + rewrite Hrun. repeat split; done.
  - unfold TlbControlHook.
    destruct (decide (NewCr = InitialCr3_ b)) as [He | Hne].
    + rewrite Hrun, bool_decide_eq_false_2 by tauto. repeat split; done.
    + destruct (Stop_control Ok_t b) as (H1 & H2 & H3 & H4 & H5).
      destruct (H5 Hcpu) as [H6 H7].
      rewrite H1, H7, bool_decide_eq_true_2 by done. repeat split; done.
Qed.

Lemma run_events_spec (es : list Event) (b : BochscpuBackend_t) :
  Cpu_ b ≠ nullptr → stop_requested b = false →
  settings (run_events FatalVector es b) = settings b ∧
  coverage (run_events FatalVector es b) = coverage b ∧
  executed (run_events FatalVector es b) = executed b ∧
  Cpu_ (run_events FatalVector es b) ≠ nullptr ∧
  stop_requested (run_events FatalVector es b)
    = existsb (event_stops FatalVector (InitialCr3_ b)) es ∧
  (existsb (event_stops FatalVector (InitialCr3_ b)) es = true →
     TestcaseResult_ (run_events FatalVector es b) ≠ Timeout_t).
Proof.
  revert b. induction es as [| e es IH]; intros b Hcpu Hrun.
  - cbn. repeat split; done.
  - cbn.
    destruct (dispatch_event_spec e b Hcpu Hrun)
      as (H1 & H2 & H3 & H4 & H5 & H6).
    destruct (stop_requested (dispatch_event FatalVector e b)) eqn:Hstop.
    + rewrite <- H5. cbn. rewrite Hstop. repeat split; try done.
      intros _. apply H6. by rewrite <- H5.
    + rewrite <- H5. cbn.
      destruct (IH _ H4 Hstop) as (K1 & K2 & K3 & K4 & K5 & K6).
      assert (Hcr3 : InitialCr3_ (dispatch_event FatalVector e b)
                     = InitialCr3_ b) by (unfold settings in H1; congruence).
      rewrite Hcr3 in K5, K6.
      repeat split; try congruence. exact K6.
Qed.

End Hooks.

Lemma RecordHit_control (Rip : Gva_t) (b : BochscpuBackend_t) :
  Cpu_ (RecordHit Rip b) = Cpu_ b ∧
  TestcaseResult_ (RecordHit Rip b) = TestcaseResult_ b ∧
  settings (RecordHit Rip b) = settings b ∧
  executed (RecordHit Rip b) = executed b.
Proof.
  unfold RecordHit.
  destruct (decide (Rip ∈ AggregatedCodeCoverage_ b)); by repeat split.
Qed.

(** Recording a hit keeps the aggregated coverage split into what was there
    before the run and the run's new coverage. *)
Lemma RecordHit_coverage_split (Before : gset Gva_t) (Rip : Gva_t)
    (b : BochscpuBackend_t) :
  coverage_split Before b → coverage_split Before (RecordHit Rip b).
Proof.
  intros [Hagg Hdisj]. unfold RecordHit.
  destruct (decide (Rip ∈ AggregatedCodeCoverage_ b)) as [Hin | Hout];
    [by split |].
  split; cbn.
  - rewrite Hagg. apply leibniz_equiv. intros y.
    rewrite !elem_of_union, elem_of_singleton. tauto.
  - intros y [Hy | Hy]%elem_of_union HB.
    + apply elem_of_singleton in Hy as ->. apply Hout. rewrite Hagg.
      by apply elem_of_union_l.
    + exact (Hdisj y Hy HB).
Qed.

Lemma dispatch_breakpoint_spec (Rip : Gva_t) (b : BochscpuBackend_t) :
  Cpu_ b ≠ nullptr → stop_requested b = false →
  settings (dispatch_breakpoint Rip b) = settings b ∧
  coverage (dispatch_breakpoint Rip b) = coverage b ∧
  executed (dispatch_breakpoint Rip b) = executed b ∧
  Cpu_ (dispatch_breakpoint Rip b) ≠ nullptr ∧
  stop_requested (dispatch_breakpoint Rip b)
    = handler_stops (Breakpoints_ b) Rip ∧
  (handler_stops (Breakpoints_ b) Rip = true →
     Breakpoints_ b !! Rip
       = Some (HandlerStops (TestcaseResult_ (dispatch_breakpoint Rip b)))).
Proof.
  intros Hcpu Hrun. unfold dispatch_breakpoint, handler_stops.
  destruct (Breakpoints_ b !! Rip) as [[| Res] |].
  - rewrite Hrun. repeat split; done.
  - destruct (Stop_control Res b) as (H1 & H2 & H3 & H4 & H5).
    destruct (H5 Hcpu) as [H6 H7]. rewrite H1, H7. repeat split; done.
  - rewrite Hrun. repeat split; done.
Qed.

(** The before-instruction hook on a run that is going.  The instruction is
    counted; if the counter has then reached the limit the run is stopped
    as a Timeout, whatever a handler did; below the limit the run is
    stopped exactly when a handler stops it, with the handler's result. *)
Lemma BeforeExecutionHook_spec (Rip : Gva_t) (b : BochscpuBackend_t) :
  Cpu_ b ≠ nullptr → stop_requested b = false →
  0 ≤ executed b → executed b + 1 < 2 ^ 64 →
  settings (BeforeExecutionHook Rip b) = settings b ∧
  Cpu_ (BeforeExecutionHook Rip b) ≠ nullptr ∧
  executed (BeforeExecutionHook Rip b) = executed b + 1 ∧
  (InstructionLimit_ b ≤ executed b + 1 →
     stop_requested (BeforeExecutionHook Rip b) = true ∧
     TestcaseResult_ (BeforeExecutionHook Rip b) = Timeout_t) ∧
  (executed b + 1 < InstructionLimit_ b →
     stop_requested (BeforeExecutionHook Rip b)
       = handler_stops (Breakpoints_ b) Rip ∧
     (handler_stops (Breakpoints_ b) Rip = true →
        Breakpoints_ b !! Rip
          = Some (HandlerStops (TestcaseResult_ (BeforeExecutionHook Rip b))))).
Proof.
  intros Hcpu Hrun Hlo Hhi. unfold BeforeExecutionHook.
  destruct (dispatch_breakpoint_spec Rip b Hcpu Hrun)
    as (A1 & _ & A3 & A4 & A5 & A6).
  set (b1 := dispatch_breakpoint Rip b) in *.
  destruct (RecordHit_control Rip b1) as (B1 & B2 & B3 & B4).
  set (b2 := RecordHit Rip b1) in *.
  set (b3 := set_RunStats_ (count_instruction (RunStats_ b2)) b2).
  assert (C1 : Cpu_ b3 = Cpu_ b1) by exact B1.
  assert (C2 : TestcaseResult_ b3 = TestcaseResult_ b1) by exact B2.
  assert (C3 : settings b3 = settings b) by (rewrite <- A1, <- B3; done).
  assert (C4 : executed b3 = executed b + 1).
  { change (executed b3) with (wrap64 (executed b2 + 1)).
    rewrite B4, A3. apply wrap64_small. unfold is_uint64. lia. }
  assert (C5 : stop_requested b3 = handler_stops (Breakpoints_ b) Rip).
  { rewrite <- A5. unfold stop_requested. by rewrite C1. }
  assert (C6 : Cpu_ b3 ≠ nullptr) by (by rewrite C1).
  assert (C7 : InstructionLimit_ b3 = InstructionLimit_ b)
    by (unfold settings in C3; congruence).
  change (NumberInstructionsExecuted (RunStats_ b3)) with (executed b3).
  rewrite C7, C4. clearbody b3.
  destruct (Z.leb_spec (InstructionLimit_ b) (executed b + 1)) as [Hle | Hgt].
  - destruct (Stop_control Timeout_t b3) as (H1 & H2 & _ & H4 & H5).
    destruct (H5 C6) as [H6 H7].
    split; [congruence |]. split; [done |]. split; [congruence |].
    split; [done | lia].
  - split; [done |]. split; [done |]. split; [done |].
    split; [lia |]. intros _. split; [done |]. by rewrite C2.
Qed.

(** ** The emulation loop *)

Section RunLoop.

Variable FatalVector : Z → option string.
Variable guest : Guest.
Variable b0 : BochscpuBackend_t.
Hypothesis HL : is_uint64 (InstructionLimit_ b0).

(** With fuel for more instructions than the limit, the emulation halts,
    and it halts in one of the two ways of [run_ended]. *)
Lemma run_loop (fuel n : nat) (b : BochscpuBackend_t) :
  run_going b0 n b →
  (Z.to_nat (InstructionLimit_ b0) - n < fuel)%nat →
  ∃ b', bochscpu_cpu_run FatalVector fuel guest n b = Some b' ∧
        run_ended FatalVector guest b0 n b'.
Proof.
  revert n b. induction fuel as [| fuel IH]; intros n b Hgo Hfuel; [lia |].
  destruct Hgo as (Hset & Hcpu & Hrun & Hcount & Hbelow).
  assert (Hlim : InstructionLimit_ b = InstructionLimit_ b0)
    by (unfold settings in Hset; congruence).
  assert (Hbps : Breakpoints_ b = Breakpoints_ b0)
    by (unfold settings in Hset; congruence).
  assert (Hcr3 : InitialCr3_ b = InitialCr3_ b0)
    by (unfold settings in Hset; congruence).
  unfold is_uint64 in HL.
  destruct (BeforeExecutionHook_spec (InsRip (guest n)) b Hcpu Hrun)
    as (A1 & A2 & A3 & A4 & A5); [lia | lia |].
  rewrite Hlim, Hcount in A4, A5. rewrite Hbps in A5. rewrite Hcount in A3.
  cbn [bochscpu_cpu_run].
  set (b1 := BeforeExecutionHook (InsRip (guest n)) b) in *. clearbody b1.
  destruct (Z_le_gt_dec (InstructionLimit_ b0) (Z.of_nat n + 1)) as [Hle | Hgt].
  { destruct (A4 Hle) as [Hstop Hres]. rewrite Hstop.
    exists b1. split; [done |].
    split; [congruence |]. split; [done |]. split; [done |]. left.
    split; [lia |]. split; [lia |]. split; [done |].
    intros m Hm Hlt. lia. }
  destruct A5 as [Hstop Hhandler]; [lia |].
  destruct (handler_stops (Breakpoints_ b0) (InsRip (guest n))) eqn:Hh.
  { rewrite Hstop. exists b1. split; [done |].
    split; [congruence |]. split; [done |]. split; [done |]. right.
    split; [lia |]. exists n. split; [lia |]. split; [done |].
    split; [unfold instruction_stops; by rewrite Hh |].
    intros Hnever Hres. apply (Hnever (InsRip (guest n))).
    rewrite Hhandler by done. by rewrite Hres. }
  rewrite Hstop.
  destruct (run_events_spec FatalVector (InsEvents (guest n)) b1 A2 Hstop)
    as (B1 & _ & B3 & B4 & B5 & B6).
  assert (Hcr3' : InitialCr3_ b1 = InitialCr3_ b0)
    by (unfold settings in A1; congruence).
  rewrite Hcr3' in B5, B6.
  set (b2 := run_events FatalVector (InsEvents (guest n)) b1) in *.
  clearbody b2.
  destruct (existsb (event_stops FatalVector (InitialCr3_ b0))
              (InsEvents (guest n))) eqn:He.
  { rewrite B5. exists b2. split; [done |].
    split; [congruence |]. split; [done |]. split; [done |]. right.
    split; [lia |]. exists n. split; [lia |]. split; [lia |].
    split; [unfold instruction_stops; rewrite He; apply orb_true_r |].
    intros _. by apply B6. }
  rewrite B5. unfold AfterExecutionHook.
  destruct (IH (S n) b2) as (b' & Hb' & Hend).
  { split; [congruence |]. split; [done |]. split; [done |].
    split; [lia | right; lia]. }
  { lia. }
  exists b'. split; [exact Hb' |].
  destruct Hend as (E1 & E2 & E3 & E4). split; [done |].
  split; [done |]. split; [done |].
  destruct E4 as [(F1 & F2 & F3 & F4) | (F1 & m & F2 & F3 & F4 & F5)].
  - left. split; [done |]. split; [lia |]. split; [done |].
    intros m Hm Hlt. destruct (decide (m = n)) as [-> | Hne].
    + unfold instruction_stops. by rewrite Hh, He.
    + apply F4; lia.
  - right. split; [done |]. exists m. split; [lia |]. done.
Qed.

(** The emulation keeps the aggregated coverage split into what was there
    before the run and the run's new coverage. *)
Lemma run_events_coverage (es : list Event) (b : BochscpuBackend_t) :
  coverage (run_events FatalVector es b) = coverage b.
Proof.
  revert b. induction es as [| e es IH]; intros b; [done |]. cbn.
  assert (He : coverage (dispatch_event FatalVector e b) = coverage b).
  { destruct e as [Gpa Len W | Vector | NewCr];
      cbv beta iota delta [dispatch_event].
    - by destruct (PhyAccessHook_control Gpa Len W b) as (_ & _ & _ & H & _).
    - unfold ExceptionHook. by destruct (FatalVector Vector).
    - unfold TlbControlHook. by destruct (decide (NewCr = InitialCr3_ b)). }
  destruct (stop_requested (dispatch_event FatalVector e b)); [done |].
  by rewrite IH.
Qed.

Lemma coverage_split_eq (Before : gset Gva_t) (b b' : BochscpuBackend_t) :
  coverage b' = coverage b → coverage_split Before b →
  coverage_split Before b'.
Proof.
  unfold coverage, coverage_split. intros [= -> ->]. done.
Qed.

Lemma BeforeExecutionHook_coverage (Before : gset Gva_t) (Rip : Gva_t)
    (b : BochscpuBackend_t) :
  coverage_split Before b →
  coverage_split Before (BeforeExecutionHook Rip b).
Proof.
  intros Hsplit. unfold BeforeExecutionHook.
  assert (H1 : coverage_split Before (dispatch_breakpoint Rip b)).
  { apply (coverage_split_eq _ b); [| done]. unfold dispatch_breakpoint.
    by destruct (Breakpoints_ b !! Rip) as [[| Res] |]. }
  apply (RecordHit_coverage_split _ Rip) in H1.
  set (b2 := RecordHit Rip (dispatch_breakpoint Rip b)) in *. clearbody b2.
  match goal with |- context [if ?c then _ else _] => destruct c end;
    by apply (coverage_split_eq _ b2).
Qed.

Lemma run_loop_coverage (Before : gset Gva_t) (fuel n : nat)
    (b b' : BochscpuBackend_t) :
  bochscpu_cpu_run FatalVector fuel guest n b = Some b' →
  coverage_split Before b → coverage_split Before b'.
Proof.
  revert n b. induction fuel as [| fuel IH]; intros n b Hrun Hsplit;
    [discriminate |].
  cbn [bochscpu_cpu_run] in Hrun.
  apply (BeforeExecutionHook_coverage _ (InsRip (guest n))) in Hsplit.
  set (b1 := BeforeExecutionHook (InsRip (guest n)) b) in *. clearbody b1.
  destruct (stop_requested b1); [by injection Hrun as <- |].
  apply (coverage_split_eq _ _ _ (run_events_coverage (InsEvents (guest n)) b1))
    in Hsplit.
  set (b2 := run_events FatalVector (InsEvents (guest n)) b1) in *.
  clearbody b2.
  destruct (stop_requested b2); [by injection Hrun as <- |].
  by apply (IH (S n) b2).
Qed.

End RunLoop.

(** ** Run *)

Lemma Run_without_engine (FatalVector : Z → option string) (fuel : nat)
    (guest : Guest) (Buffer : ptr (list Byte.byte)) (BufferSize : Z)
    (b : BochscpuBackend_t) :
  Cpu_ b = nullptr →
  Run FatalVector fuel guest Buffer BufferSize b = Returned None b.
Proof. intros H. unfold Run. by rewrite H. Qed.

(** On a backend with an engine, and with fuel for more instructions than
    the limit, [Run] returns the recorded result of an emulation that has
    ended, and the aggregated coverage has grown by exactly the run's new
    coverage. *)
Lemma Run_with_engine (FatalVector : Z → option string) (fuel : nat)
    (guest : Guest) (Buffer : ptr (list Byte.byte)) (BufferSize : Z)
    (b : BochscpuBackend_t) :
  Cpu_ b ≠ nullptr →
  is_uint64 (InstructionLimit_ b) →
  (Z.to_nat (InstructionLimit_ b) < fuel)%nat →
  ∃ b', Run FatalVector fuel guest Buffer BufferSize b
          = Returned (Some (TestcaseResult_ b')) b' ∧
        run_ended FatalVector guest b 0 b'.
Proof.
  intros Hcpu HL Hfuel. unfold Run.
  destruct (Cpu_ b) as [| c] eqn:Hc; [done |].
  set (bs := clear_stop _).
  assert (Hgo : run_going b 0 bs).
  { subst bs. unfold clear_stop. cbn. rewrite Hc.
    split; [done |]. split; [done |]. split; [done |]. split; [done |].
    by left. }
  destruct (run_loop FatalVector guest b HL fuel 0 bs Hgo) as (b' & Hb' & Hend);
    [lia |].
  exists b'. by rewrite Hb'.
Qed.

Lemma Run_coverage (FatalVector : Z → option string) (fuel : nat)
    (guest : Guest) (Buffer : ptr (list Byte.byte)) (BufferSize : Z)
    (b b' : BochscpuBackend_t) (r : TestcaseResult_t) :
  Run FatalVector fuel guest Buffer BufferSize b = Returned (Some r) b' →
  coverage_split (AggregatedCodeCoverage_ b) b'.
Proof.
  unfold Run. destruct (Cpu_ b) as [| c] eqn:Hc; [done |].
  set (bs := clear_stop _).
  destruct (bochscpu_cpu_run FatalVector fuel guest 0 bs) as [b1 |] eqn:Hrun;
    [| done].
  intros [= _ <-].
  apply (run_loop_coverage FatalVector guest _ fuel 0 bs b1 Hrun).
  subst bs. unfold clear_stop. cbn. rewrite Hc. split; cbn.
  - by rewrite union_empty_r_L.
  - apply disjoint_empty_l.
Qed.






(** C7 (the body of [Run] is modelled from the specification).  [Run]
    always returns: on a backend with an engine it returns a definite
    result, the recorded one, which is Ok, a Crash or Timeout; it returns
    none only when there is no engine to start, as on a newly constructed
    backend whose initialization failed.  ([fuel] only has to exceed the
    instruction limit.) *)
Theorem Run_returns_a_result (FatalVector : Z → option string)
    (guest : Guest) (Buffer : ptr (list Byte.byte)) (BufferSize : Z)
    (b : BochscpuBackend_t) (fuel : nat)
    (HL : is_uint64 (InstructionLimit_ b))
    (Hfuel : (Z.to_nat (InstructionLimit_ b) < fuel)%nat) :
  (Cpu_ b ≠ nullptr →
     ∃ (r : TestcaseResult_t) (b' : BochscpuBackend_t),
       Run FatalVector fuel guest Buffer BufferSize b = Returned (Some r) b' ∧
       r = TestcaseResult_ b' ∧
       (r = Ok_t ∨ (∃ Reason, r = Crash_t Reason) ∨ r = Timeout_t)) ∧
  (Cpu_ b = nullptr →
     Run FatalVector fuel guest Buffer BufferSize b = Returned None b) ∧
  (∀ b', Run FatalVector fuel guest Buffer BufferSize b = Returned None b' →
     Cpu_ b = nullptr) ∧
  (∀ (CpuStateValid : CpuState_t → bool)
     (Image : option (gmap Gpa_t (list Byte.byte))) (Opts : Options_t)
     (State : CpuState_t) (b1 : BochscpuBackend_t),
     Initialize CpuStateValid Image Opts State BochscpuBackend_t_ctor
       = (false, b1) →
     Run FatalVector fuel guest Buffer BufferSize b1 = Returned None b1).
Proof.
  split; [| split; [| split]].
  - intros Hcpu.
    destruct (Run_with_engine FatalVector fuel guest Buffer BufferSize b)
      as (b' & Hrun & _); [done | done | done |].
    exists (TestcaseResult_ b'), b'. split; [exact Hrun |]. split; [done |].
    destruct (TestcaseResult_ b') as [| Reason |]; eauto.
  - apply Run_without_engine.
  - intros b' Hrun. destruct (Cpu_ b) as [| c] eqn:Hc; [done |].
    destruct (Run_with_engine FatalVector fuel guest Buffer BufferSize b)
      as (b2 & Hrun2 & _); [by rewrite Hc | done | done |].
    rewrite Hrun2 in Hrun. discriminate Hrun.
  - intros CpuStateValid Image Opts State b1 Hinit.
    apply Run_without_engine. unfold Initialize in Hinit.
    destruct Image as [Pages |].
    + destruct (CpuStateValid State); [discriminate Hinit |].
      by injection Hinit as <-.
    + by injection Hinit as <-.
Qed.

(** The guest that faults at its second instruction, under a limit of
    three: the result is the crash. *)
Lemma Run_returns_a_result_witness :
  is_uint64 (InstructionLimit_ sample_backend) ∧
  (∃ (r : TestcaseResult_t) (b' : BochscpuBackend_t),
     Run sample_policy 5 sample_crashing_guest nullptr 0 sample_backend
       = Returned (Some r) b' ∧
     r = TestcaseResult_ b' ∧
     (r = Ok_t ∨ (∃ Reason, r = Crash_t Reason) ∨ r = Timeout_t)) ∧
  match Run sample_policy 5 sample_crashing_guest nullptr 0 sample_backend with
  | Returned r _ => r = Some (Crash_t "general-protection")
  | StillRunning => False
  end.
Proof.
  assert (HL : is_uint64 (InstructionLimit_ sample_backend))
    by (unfold is_uint64; cbn; lia).
  assert (Hfuel : (Z.to_nat (InstructionLimit_ sample_backend) < 5)%nat)
    by (cbn; lia).
  destruct (Run_returns_a_result sample_policy sample_crashing_guest nullptr 0
              sample_backend 5 HL Hfuel) as (Hres & _).
  split; [exact HL |]. split; [apply Hres; discriminate |].
  vm_compute. reflexivity.
Defined.

(** ** Revoking the coverage of the last run *)

(** C6 (the bodies of [RevokeLastNewCoverage] and [Run] are modelled from
    the specification).  [RevokeLastNewCoverage] succeeds, removes from the
    aggregated coverage exactly the last run's new coverage and clears the
    latter; a second call in a row succeeds and changes nothing.  After a
    run that returned a result, the addresses removed are exactly those the
    run added: the aggregated coverage is again what it was before the
    run. *)
Theorem RevokeLastNewCoverage_exact (b : BochscpuBackend_t) :
  (RevokeLastNewCoverage b).1 = true ∧
  AggregatedCodeCoverage_ (RevokeLastNewCoverage b).2
    = AggregatedCodeCoverage_ b ∖ LastNewCoverage_ b ∧
  LastNewCoverage_ (RevokeLastNewCoverage b).2 = ∅ ∧
  RevokeLastNewCoverage (RevokeLastNewCoverage b).2
    = (true, (RevokeLastNewCoverage b).2) ∧
  ∀ (FatalVector : Z → option string) (fuel : nat) (guest : Guest)
    (Buffer : ptr (list Byte.byte)) (BufferSize : Z)
    (r : TestcaseResult_t) (b1 : BochscpuBackend_t),
    Run FatalVector fuel guest Buffer BufferSize b = Returned (Some r) b1 →
    AggregatedCodeCoverage_ b1
      = AggregatedCodeCoverage_ b ∪ LastNewCoverage_ b1 ∧
    LastNewCoverage_ b1 ## AggregatedCodeCoverage_ b ∧
    AggregatedCodeCoverage_ (RevokeLastNewCoverage b1).2
      = AggregatedCodeCoverage_ b.
Proof.
  destruct (RevokeLastNewCoverage_sets b) as [Hagg Hlast].
  split; [done |]. split; [exact Hagg |]. split; [exact Hlast |].
  split; [apply RevokeLastNewCoverage_again |].
  intros FatalVector fuel guest Buffer BufferSize r b1 Hrun.
  pose proof (Run_coverage _ _ _ _ _ _ _ _ Hrun) as Hsplit.
  destruct Hsplit as [H1 H2]. split; [exact H1 |]. split; [exact H2 |].
  by apply coverage_split_revoke.
Qed.

(** * Further properties of the code in the header *)

(** ** The figures of [Print] *)

(** X1.  As long as the byte count of dirty memory does not overflow (fewer
    than 2^52 dirty pages), the report [Print] writes shows, next to that
    byte count, an MB figure that is a sixteenth (rounded down) of the byte
    count divided by [_1MB]; a report whose memory accesses amount to the
    same byte count shows the byte count divided by [_1MB] on its
    memory-accesses line, sixteen times as much.  The dirty-pages MB figure
    therefore never exceeds the real one and falls short of it from 256
    dirty pages (1 MB) on. *)
Theorem Print_dirty_mb_is_a_sixteenth (s : BochscpuRunStats_t)
    (Hrange : 0 ≤ DirtyGpas s < 2 ^ 52) :
  Print s =
    report (NumberInstructionsExecuted s) (AggregatedCodeCoverage s)
      (DirtyGpas s * Page.Size) (DirtyGpas s * Page.Size / _1MB / 16)
      (NumberMemoryAccesses s) (NumberMemoryAccesses s / _1MB) ∧
  (∀ s' : BochscpuRunStats_t,
     NumberMemoryAccesses s' = DirtyGpas s * Page.Size →
     Print s' =
       report (NumberInstructionsExecuted s') (AggregatedCodeCoverage s')
         (DirtyMemoryBytes s') (DirtyMemoryMb s')
         (DirtyGpas s * Page.Size) (DirtyGpas s * Page.Size / _1MB)) ∧
  DirtyGpas s * Page.Size / _1MB / 16 ≤ DirtyGpas s * Page.Size / _1MB ∧
  (256 ≤ DirtyGpas s →
     DirtyGpas s * Page.Size / _1MB / 16 < DirtyGpas s * Page.Size / _1MB).
Proof.
  assert (Hb : DirtyMemoryBytes s = DirtyGpas s * Page.Size)
    by (apply DirtyMemoryBytes_small; exact Hrange).
  assert (Hreal : DirtyGpas s * Page.Size / _1MB = DirtyGpas s / 256).
  { unfold _1MB, Page.Size.
    replace (1024 * 1024) with (256 * 4096) by reflexivity.
    rewrite Z.div_mul_cancel_r by lia. reflexivity. }
  assert (Hmb : DirtyMemoryMb s = DirtyGpas s * Page.Size / _1MB / 16).
  { rewrite Hreal. unfold DirtyMemoryMb, Page.Size.
    rewrite Z.div_div by lia. reflexivity. }
  split; [rewrite Print_report, Hb, Hmb; reflexivity |]. split.
  { intros s' Hs'. rewrite Print_report. unfold MemoryAccessMb.
    by rewrite Hs'. }
  rewrite Hreal. split.
  - apply Z.div_le_upper_bound; [lia |].
    assert (0 ≤ DirtyGpas s / 256) by (apply Z.div_pos; lia). lia.
  - intros Hbig. apply Z.div_lt_upper_bound; [lia |].
    assert (1 ≤ DirtyGpas s / 256) by (apply Z.div_le_lower_bound; lia). lia.
Qed.

(** With 4096 dirty pages: 16 MB of dirty memory, reported as 1 MB. *)
Lemma Print_dirty_mb_is_a_sixteenth_witness :
  0 ≤ DirtyGpas (mkRunStats 0 0 0 4096) < 2 ^ 52 ∧
  Print (mkRunStats 0 0 0 4096) = report 0 0 16777216 1 0 0 ∧
  Print (mkRunStats 0 16777216 0 0) = report 0 0 0 0 16777216 16.
Proof.
  assert (Hrange : 0 ≤ DirtyGpas (mkRunStats 0 0 0 4096) < 2 ^ 52)
    by (cbn; lia).
  destruct (Print_dirty_mb_is_a_sixteenth _ Hrange) as (H & H' & _).
  split; [exact Hrange |]. split; [exact H |].
  apply (H' (mkRunStats 0 16777216 0 0)). reflexivity.
Defined.

(** X2.  The byte figure the report of [Print] shows for dirty pages is the
    product [DirtyGpas * Page::Size] reduced modulo 2^64: a 64-bit value
    and a multiple of the page size, which is the exact product if and only
    if there are fewer than 2^52 dirty pages; with 2^52 dirty pages the
    report shows 0 bytes. *)
Theorem Print_dirty_bytes_exact_iff (s : BochscpuRunStats_t)
    (Hrange : is_uint64 (DirtyGpas s)) :
  Print s =
    report (NumberInstructionsExecuted s) (AggregatedCodeCoverage s)
      ((DirtyGpas s * Page.Size) mod 2 ^ 64) (DirtyGpas s / Page.Size)
      (NumberMemoryAccesses s) (NumberMemoryAccesses s / _1MB) ∧
  is_uint64 ((DirtyGpas s * Page.Size) mod 2 ^ 64) ∧
  ((DirtyGpas s * Page.Size) mod 2 ^ 64) mod Page.Size = 0 ∧
  ((DirtyGpas s * Page.Size) mod 2 ^ 64 = DirtyGpas s * Page.Size ↔
   DirtyGpas s < 2 ^ 52) ∧
  (DirtyGpas s = 2 ^ 52 →
     Print s =
       report (NumberInstructionsExecuted s) (AggregatedCodeCoverage s)
         0 (2 ^ 40)
         (NumberMemoryAccesses s) (NumberMemoryAccesses s / _1MB)).
Proof.
  unfold is_uint64 in Hrange.
  split; [apply Print_report |].
  split; [apply (wrap64_range (DirtyGpas s * Page.Size)) |]. split.
  { unfold Page.Size.
    rewrite Z.mod_mod_divide by (exists (2 ^ 52); reflexivity).
    apply Z_mod_mult. }
  split.
  - split.
    + intros Heq. pose proof (wrap64_range (DirtyGpas s * Page.Size)) as Hw.
      unfold wrap64 in Hw. rewrite Heq in Hw.
      unfold is_uint64, Page.Size in Hw. lia.
    + intros Hlt. apply (DirtyMemoryBytes_small s). lia.
  - intros Hd. rewrite Print_report.
    unfold DirtyMemoryBytes, DirtyMemoryMb. rewrite Hd. reflexivity.
Qed.

(** At 2^52 dirty pages the report shows 0 bytes. *)
Lemma Print_dirty_bytes_exact_iff_witness :
  is_uint64 (DirtyGpas stats_at_overflow) ∧
  Print stats_at_overflow = report 10 4 0 1099511627776 2097152 2 ∧
  (DirtyGpas stats_at_overflow * Page.Size) mod 2 ^ 64
    ≠ DirtyGpas stats_at_overflow * Page.Size.
Proof.
  assert (Hrange : is_uint64 (DirtyGpas stats_at_overflow))
    by (unfold is_uint64; cbn; lia).
  destruct (Print_dirty_bytes_exact_iff _ Hrange) as (_ & _ & _ & Hiff & Hmax).
  split; [exact Hrange |]. split; [apply Hmax; reflexivity |].
  intros Heq. apply Hiff in Heq. cbn in Heq. lia.
Defined.

(** X3.  The MB figure the report of [Print] shows for memory accesses is
    the byte count shown next to it, rounded down to whole units of [_1MB]:
    it never over-reports, it under-reports by less than one unit, it is 0
    exactly below [_1MB] bytes, and a report with at least as many bytes
    shows at least as many MB. *)
Theorem Print_memory_access_mb_rounds_down (s : BochscpuRunStats_t)
    (Hrange : 0 ≤ NumberMemoryAccesses s) :
  Print s =
    report (NumberInstructionsExecuted s) (AggregatedCodeCoverage s)
      (DirtyMemoryBytes s) (DirtyMemoryMb s)
      (NumberMemoryAccesses s) (NumberMemoryAccesses s / _1MB) ∧
  NumberMemoryAccesses s / _1MB * _1MB ≤ NumberMemoryAccesses s
    < (NumberMemoryAccesses s / _1MB + 1) * _1MB ∧
  (NumberMemoryAccesses s / _1MB = 0 ↔ NumberMemoryAccesses s < _1MB) ∧
  (∀ s' : BochscpuRunStats_t,
     NumberMemoryAccesses s ≤ NumberMemoryAccesses s' →
     Print s' =
       report (NumberInstructionsExecuted s') (AggregatedCodeCoverage s')
         (DirtyMemoryBytes s') (DirtyMemoryMb s')
         (NumberMemoryAccesses s') (NumberMemoryAccesses s' / _1MB) ∧
     NumberMemoryAccesses s / _1MB ≤ NumberMemoryAccesses s' / _1MB).
Proof.
  split; [apply Print_report |].
  unfold _1MB in *.
  pose proof (Z.div_mod (NumberMemoryAccesses s) (1024 * 1024)) as Hdm.
  pose proof (Z.mod_pos_bound (NumberMemoryAccesses s) (1024 * 1024)) as Hm.
  split; [lia |]. split.
  - split; [lia |]. intros Hlt. apply Z.div_small. lia.
  - intros s' Hle. split; [apply Print_report |].
    apply Z.div_le_mono; lia.
Qed.

(** 640 bytes are reported as 0 MB, 2097152 bytes as 2 MB. *)
Lemma Print_memory_access_mb_rounds_down_witness :
  0 ≤ NumberMemoryAccesses stats_after_a_run ∧
  Print stats_after_a_run = report 1200 37 12288 0 640 0 ∧
  Print stats_at_overflow = report 10 4 0 1099511627776 2097152 2.
Proof.
  assert (Hrange : 0 ≤ NumberMemoryAccesses stats_after_a_run) by (cbn; lia).
  destruct (Print_memory_access_mb_rounds_down _ Hrange)
    as (Hprint & _ & _ & Hmono).
  assert (Hle : NumberMemoryAccesses stats_after_a_run
                ≤ NumberMemoryAccesses stats_at_overflow) by (cbn; lia).
  destruct (Hmono stats_at_overflow Hle) as [Hprint' _].
  split; [exact Hrange |]. split; [exact Hprint | exact Hprint'].
Defined.

(** ** The identity hashers *)

(** X4.  The identity hashers never make two addresses collide: on 64-bit
    values, two physical (or two virtual) addresses have the same hash if
    and only if they are the same address; and whatever the key, the hash
    fits [size_t]. *)
Theorem identity_hashers_collision_free (Gpa1 Gpa2 : Gpa_t) (Gva1 Gva2 : Gva_t)
    (HGpa1 : is_uint64 (Gpa_U64 Gpa1)) (HGpa2 : is_uint64 (Gpa_U64 Gpa2))
    (HGva1 : is_uint64 (Gva_U64 Gva1)) (HGva2 : is_uint64 (Gva_U64 Gva2)) :
  (IdentityGpaHash Gpa1 = IdentityGpaHash Gpa2 ↔ Gpa1 = Gpa2) ∧
  (IdentityGvaHash Gva1 = IdentityGvaHash Gva2 ↔ Gva1 = Gva2) ∧
  0 ≤ IdentityGpaHash Gpa1 < 2 ^ size_t_bits ∧
  0 ≤ IdentityGvaHash Gva1 < 2 ^ size_t_bits.
Proof.
  unfold IdentityGpaHash, IdentityGvaHash.
  rewrite !to_size_t_small by assumption.
  destruct Gpa1 as [a1], Gpa2 as [a2], Gva1 as [v1], Gva2 as [v2]. cbn in *.
  unfold is_uint64, size_t_bits in *.
  repeat split; try lia; congruence.
Qed.

Lemma identity_hashers_collision_free_witness :
  IdentityGpaHash (mkGpa 4096) ≠ IdentityGpaHash (mkGpa 8192) ∧
  IdentityGvaHash (mkGva 4198400) ≠ IdentityGvaHash (mkGva 4198401).
Proof.
  assert (H1 : is_uint64 4096) by (unfold is_uint64; lia).
  assert (H2 : is_uint64 8192) by (unfold is_uint64; lia).
  assert (H3 : is_uint64 4198400) by (unfold is_uint64; lia).
  assert (H4 : is_uint64 4198401) by (unfold is_uint64; lia).
  destruct (identity_hashers_collision_free (mkGpa 4096) (mkGpa 8192)
              (mkGva 4198400) (mkGva 4198401) H1 H2 H3 H4)
    as (Hpa & Hva & _).
  split; [intros H; apply Hpa in H | intros H; apply Hva in H];
    discriminate H.
Defined.

(** ** The text of [Print] *)

Lemma string_app_assoc (a b c : string) : (a +:+ b) +:+ c = a +:+ (b +:+ c).
Proof.
  induction a as [| x a IH]; [reflexivity |].
  change (String x ((a +:+ b) +:+ c) = String x (a +:+ (b +:+ c))).
  by rewrite IH.
Qed.

Lemma string_app_inv_head (a b c : string) : a +:+ b = a +:+ c → b = c.
Proof.
  induction a as [| x a IH]; [done |].
  change (String x (a +:+ b) = String x (a +:+ c) → b = c).
  intros [= H]. by apply IH.
Qed.

(** The report is its two heading lines followed by the three lines of
    figures. *)
Lemma Print_lines (s : BochscpuRunStats_t) :
  Print s =
    Print_banner +:+ instructions_line s +:+ dirty_pages_line s +:+
    memory_accesses_line s.
Proof.
  unfold Print, Print_banner, instructions_line, dirty_pages_line,
    memory_accesses_line.
  rewrite !string_app_assoc. reflexivity.
Qed.

Lemma string_of_uint_digits (d : Decimal.uint) :
  digits_only (NilEmpty.string_of_uint d) = true.
Proof. induction d; cbn; done. Qed.

Lemma fmt_u64_digits (z : Z) : digits_only (fmt_u64 z) = true.
Proof.
  unfold fmt_u64, NilZero.string_of_uint.
  destruct (N.to_uint (Z.to_N z)) as [| d | d | d | d | d | d | d | d | d | d];
    [reflexivity | ..]; exact (string_of_uint_digits d).
Qed.

(** A run of digits followed by something that does not start with a digit
    can be split in one way only. *)
Lemma digits_split (d1 d2 r1 r2 : string) :
  digits_only d1 = true → digits_only d2 = true →
  starts_off_digit r1 = true → starts_off_digit r2 = true →
  d1 +:+ r1 = d2 +:+ r2 → d1 = d2 ∧ r1 = r2.
Proof.
  revert d2. induction d1 as [| c1 d1 IH]; intros [| c2 d2] H1 H2 Hr1 Hr2 Heq.
  - done.
  - exfalso. change (r1 = String c2 (d2 +:+ r2)) in Heq. subst r1.
    cbn in H2, Hr1.
    apply andb_true_iff in H2 as [H2 _]. by rewrite H2 in Hr1.
  - exfalso. change (String c1 (d1 +:+ r1) = r2) in Heq. subst r2.
    cbn in H1, Hr2.
    apply andb_true_iff in H1 as [H1 _]. by rewrite H1 in Hr2.
  - change (String c1 (d1 +:+ r1) = String c2 (d2 +:+ r2)) in Heq.
    injection Heq as -> Heq. cbn in H1, H2.
    apply andb_true_iff in H1 as [_ H1]. apply andb_true_iff in H2 as [_ H2].
    destruct (IH d2 H1 H2 Hr1 Hr2 Heq) as [-> ->]. done.
Qed.

Lemma count_char_app (c : Ascii.ascii) (a b : string) :
  count_char c (a +:+ b) = (count_char c a + count_char c b)%nat.
Proof.
  induction a as [| x a IH]; [reflexivity |].
  change (count_char c (String x (a +:+ b))
          = (count_char c (String x a) + count_char c b)%nat).
  cbn [count_char]. rewrite IH. lia.
Qed.

Lemma count_char_digits (c : Ascii.ascii) (s : string) :
  is_digit c = false → digits_only s = true → count_char c s = O.
Proof.
  intros Hc. induction s as [| x s IH]; [done |]. cbn. intros H.
  apply andb_true_iff in H as [Hx Hs]. rewrite (IH Hs).
  destruct (Ascii.eqb_spec c x) as [-> | _]; [congruence | done].
Qed.

(** X5.  A report printed right after [Reset] shows 0 instructions and 0
    bytes (0 MB) of memory accesses, while its unique-coverage figure and
    its whole dirty-pages line are those of before the [Reset]. *)
Theorem Print_after_Reset (s : BochscpuRunStats_t) :
  Print (Reset s) =
    Print_banner +:+
    ("Instructions executed: 0 (" +:+ fmt_u64 (AggregatedCodeCoverage s) +:+
       " unique)" +:+ newline) +:+
    dirty_pages_line s +:+
    ("      Memory accesses: 0 bytes (0 MB)" +:+ newline).
Proof. rewrite Print_lines. destruct s as [n m c d]. reflexivity. Qed.

Lemma dirty_pages_determined (d1 d2 : Z) :
  is_uint64 d1 → is_uint64 d2 →
  wrap64 (d1 * Page.Size) = wrap64 (d2 * Page.Size) →
  d1 / Page.Size = d2 / Page.Size → d1 = d2.
Proof.
  unfold is_uint64, wrap64, Page.Size.
  change (2 ^ 64) with 18446744073709551616.
  intros H1 H2 Hb Hq. Z.div_mod_to_equations. lia.
Qed.

Ltac peel_constant H := apply string_app_inv_head in H.
Ltac peel_figure H E :=
  apply digits_split in H as [E H];
    [| apply fmt_u64_digits | apply fmt_u64_digits
     | reflexivity | reflexivity].

(** X6.  [Print] loses nothing: two run statistics holding 64-bit counters
    print the same report only if they are equal.  (The page count is
    recovered from the byte figure together with the MB figure, also when
    the byte figure has wrapped around.) *)
Theorem Print_injective (s1 s2 : BochscpuRunStats_t)
    (Hs1 : stats_in_range s1) (Hs2 : stats_in_range s2) :
  Print s1 = Print s2 ↔ s1 = s2.
Proof.
  split; [| by intros ->].
  intros H. unfold Print in H.
  do 5 peel_constant H. peel_figure H En.
  peel_constant H. peel_figure H Ec.
  do 3 peel_constant H. peel_figure H Edb.
  peel_constant H. peel_figure H Edmb.
  do 3 peel_constant H. peel_figure H Em.
  clear H.
  destruct Hs1 as (Hn1 & Hm1 & Hc1 & Hd1), Hs2 as (Hn2 & Hm2 & Hc2 & Hd2).
  unfold is_uint64 in Hn1, Hm1, Hc1, Hn2, Hm2, Hc2.
  apply fmt_u64_inj in En; [| lia | lia].
  apply fmt_u64_inj in Ec; [| lia | lia].
  apply fmt_u64_inj in Em; [| lia | lia].
  apply fmt_u64_inj in Edb;
    [| apply wrap64_range | apply wrap64_range].
  apply fmt_u64_inj in Edmb;
    [| apply Z.div_pos; [apply Hd1 | done]
     | apply Z.div_pos; [apply Hd2 | done]].
  pose proof (dirty_pages_determined _ _ Hd1 Hd2 Edb Edmb) as Ed.
  destruct s1, s2. cbn in *. congruence.
Qed.

Lemma Print_injective_witness :
  stats_in_range stats_after_a_run ∧ stats_in_range stats_of_another_run ∧
  Print stats_after_a_run ≠ Print stats_of_another_run.
Proof.
  assert (H1 : stats_in_range stats_after_a_run)
    by (unfold stats_in_range, is_uint64; cbn; lia).
  assert (H2 : stats_in_range stats_of_another_run)
    by (unfold stats_in_range, is_uint64; cbn; lia).
  split; [exact H1 |]. split; [exact H2 |].
  intros H. apply (Print_injective _ _ H1 H2) in H. discriminate H.
Defined.

(** X7.  Whatever the counters, the report has exactly five lines: the
    figures never contain a line break, and each of the three lines of
    figures has a single one. *)
Theorem Print_writes_five_lines (s : BochscpuRunStats_t) :
  count_char (Ascii.ascii_of_nat 10) (Print s) = 5%nat ∧
  count_char (Ascii.ascii_of_nat 10) (instructions_line s) = 1%nat ∧
  count_char (Ascii.ascii_of_nat 10) (dirty_pages_line s) = 1%nat ∧
  count_char (Ascii.ascii_of_nat 10) (memory_accesses_line s) = 1%nat.
Proof.
  assert (Hfig : ∀ z, count_char (Ascii.ascii_of_nat 10) (fmt_u64 z) = O).
  { intros z. apply count_char_digits; [reflexivity | apply fmt_u64_digits]. }
  unfold Print, instructions_line, dirty_pages_line, memory_accesses_line.
  rewrite !count_char_app, !Hfig. repeat split; reflexivity.
Qed.
